(** * Business visualization generator: data preparation and pipeline control

    A shallow embedding of [src/visualizations/generate_business_charts.py]:
    the feature deriver inside [load_and_prepare_data] (three [pd.cut]
    binnings, the seeded [np.random.choice] cluster simulation and the
    archetype lookup), the synthetic confusion matrix of
    [create_model_performance_chart], and the exception flow of [main].

    Conventions of the embedding.
    - A float64 cell is the rational it denotes, or NaN, or an infinity
      ([num]); the order of finite floats is the order of those rationals,
      so every statement quantified over [Q] covers every finite float.
    - The checks on the five sampling weights are made on their exact
      values; their cumulative sums, which decide the id a sample draws,
      are computed in binary64 as NumPy computes them.
    - The literals of the confusion matrix are binary64 values and are
      computed with the primitive IEEE 754 operations.
    - pandas, NumPy and matplotlib are libraries outside the repository;
      [pd.cut], [Series.map], item access and [np.random.choice] follow
      their documented behaviour, while the Mersenne Twister stream, the
      content of the file system and the outcome of the plotting calls are
      fields of the environments [Generator] and [Host]. *)

From Stdlib Require Import ZArith QArith Qround Qabs List String Ascii Bool Lia Lqa.
From Stdlib Require Import PrimFloat FloatOps SpecFloat Uint63.
From Stdlib Require DecimalString.
From Stdlib Require Import Sorted.
Import ListNotations.

Set Warnings "-inexact-float".

Local Open Scope string_scope.

(** ** Python exceptions *)

Inductive exc_class :=
| FileNotFoundError | PermissionError | OSError
| EmptyDataError | ParserError | UnicodeDecodeError
| KeyError | TypeError | ValueError | IndexError | RuntimeError | MemoryError
| KeyboardInterrupt | SystemExit.

(** [isinstance(e, Exception)]: everything but the two classes that derive
    from [BaseException] directly. *)
Definition is_Exception (c : exc_class) : bool :=
  match c with
  | KeyboardInterrupt | SystemExit => false
  | _ => true
  end.

(** An exception instance: its class and [str(e)]. *)
Record exn := mkExn { exc_cls : exc_class; exc_str : string }.

(** [repr] of a Python string without quotes or escapes inside. *)
Definition repr_str (s : string) : string := "'" ++ s ++ "'".

(** [str(KeyError(k))] is [repr(k)]. *)
Definition key_error (k : string) : exn := mkExn KeyError (repr_str k).

(** ** Numeric cells and columns *)

(** A float64 value (an int64 value is a finite one). *)
Inductive num :=
| NaN
| NegInf
| PosInf
| Fin (q : Q).

Definition isna (v : num) : bool :=
  match v with NaN => true | _ => false end.

Definition Qltb (x y : Q) : bool := negb (Qle_bool y x).

(** The order NumPy sorts and searches by: NaN after every number. *)
Definition num_lt (a b : num) : bool :=
  match a, b with
  | NaN, _ => false
  | _, NaN => true
  | NegInf, NegInf => false
  | NegInf, _ => true
  | PosInf, _ => false
  | Fin _, NegInf => false
  | Fin _, PosInf => true
  | Fin x, Fin y => Qltb x y
  end.

Inductive side := Left | Right.

(** [a.searchsorted(v, side)] on a sorted [a]: the insertion point [i] with
    [a[i-1] < v <= a[i]] for [Left] and [a[i-1] <= v < a[i]] for [Right]. *)
Fixpoint searchsorted (a : list num) (v : num) (s : side) : nat :=
  match a with
  | [] => 0
  | x :: rest =>
      if match s with
         | Left => num_lt x v
         | Right => negb (num_lt v x)
         end
      then S (searchsorted rest v s)
      else 0
  end.

Inductive column :=
| NumCol (xs : list num)
| IntCol (xs : list Z)
| CatCol (categories : list string) (xs : list (option string))
| ObjCol (xs : list (option string)).

Definition column_len (c : column) : nat :=
  match c with
  | NumCol xs => List.length xs
  | IntCol xs => List.length xs
  | CatCol _ xs => List.length xs
  | ObjCol xs => List.length xs
  end.

(** ** [pd.cut(x, bins=..., labels=...)], with [right=True] and
    [include_lowest=False], the defaults the source leaves in place *)

Fixpoint monotonic_increasing (bins : list Q) : bool :=
  match bins with
  | x :: ((y :: _) as rest) => Qle_bool x y && monotonic_increasing rest
  | _ => true
  end.

Fixpoint has_duplicates (bins : list Q) : bool :=
  match bins with
  | [] => false
  | x :: rest => existsb (Qeq_bool x) rest || has_duplicates rest
  end.

(** [take] with fill: index [-1] gives the missing value. *)
Definition take_label (labels : list string) (i : Z) : option string :=
  if (i <? 0)%Z then None else nth_error labels (Z.to_nat i).

(** One element of [_bins_to_cuts]: [ids = bins.searchsorted(x, side="left")],
    [na_mask = isna(x) | (ids == len(bins)) | (ids == 0)],
    [putmask(ids, na_mask, 0)], [take(labels, ids - 1)]. *)
Definition cut_value (bins : list Q) (labels : list string) (v : num)
  : option string :=
  let ids := searchsorted (map Fin bins) v Left in
  let na_mask := isna v || (ids =? List.length bins)%nat || (ids =? 0)%nat in
  let ids := if na_mask then 0%nat else ids in
  take_label labels (Z.of_nat ids - 1).

(** The values of a numeric column as floats; [None] for a column of
    strings or categories, which cannot be compared with the bin edges.  An
    object column without rows (what a file of headers only is read as) has
    nothing to compare: it is accepted and gives no values. *)
Definition to_numeric (x : column) : option (list num) :=
  match x with
  | NumCol xs => Some xs
  | IntCol zs => Some (map (fun z => Fin (inject_Z z)) zs)
  | ObjCol [] => Some []
  | CatCol _ _ | ObjCol _ => None
  end.

Definition pd_cut (x : column) (bins : list Q) (labels : list string)
  : exn + column :=
  if negb (monotonic_increasing bins) then
    inl (mkExn ValueError "bins must increase monotonically.")
  else if has_duplicates bins && negb (List.length bins =? 2)%nat then
    inl (mkExn ValueError "Bin edges must be unique")
  else
    match to_numeric x with
    | None =>
        inl (mkExn TypeError
               "'<' not supported between instances of 'float' and 'str'")
    | Some xs =>
        if negb (List.length labels =? List.length bins - 1)%nat then
          inl (mkExn ValueError
                 "Bin labels must be one fewer than the number of bin edges")
        else inr (CatCol labels (map (cut_value bins labels) xs))
    end.

(** ** Data frames: a row count and the columns in order *)

Record DataFrame := mkDF { nrows : nat; columns : list (string * column) }.

Fixpoint lookup_col (name : string) (cols : list (string * column))
  : option column :=
  match cols with
  | [] => None
  | (k, c) :: rest => if String.eqb k name then Some c else lookup_col name rest
  end.

(** [df[name]]. *)
Definition getitem (df : DataFrame) (name : string) : exn + column :=
  match lookup_col name (columns df) with
  | Some c => inr c
  | None => inl (key_error name)
  end.

Fixpoint set_col (name : string) (c : column) (cols : list (string * column))
  : list (string * column) :=
  match cols with
  | [] => [(name, c)]
  | (k, old) :: rest =>
      if String.eqb k name then (k, c) :: rest
      else (k, old) :: set_col name c rest
  end.

(** [df[name] = c]: an existing column is replaced where it stands, a new
    one is appended. *)
Definition setitem (df : DataFrame) (name : string) (c : column) : DataFrame :=
  mkDF (nrows df) (set_col name c (columns df)).

(** A Python [dict] with integer keys, in insertion order. *)
Definition dict (V : Type) := list (Z * V).

Definition keys {V} (d : dict V) : list Z := map fst d.
Definition values {V} (d : dict V) : list V := map snd d.

Fixpoint dict_get {V} (d : dict V) (k : Z) : option V :=
  match d with
  | [] => None
  | (k', v) :: rest => if (k' =? k)%Z then Some v else dict_get rest k
  end.

(** [Series.map(d)]: a value that is no key of [d] becomes missing.  A float
    equal to an integer key finds it; a string never equals an integer. *)
Definition series_map (c : column) (d : dict string) : column :=
  match c with
  | IntCol zs => ObjCol (map (dict_get d) zs)
  | NumCol xs =>
      ObjCol (map (fun v =>
                     match v with
                     | Fin q => if Qeq_bool q (inject_Z (Qfloor q))
                                then dict_get d (Qfloor q) else None
                     | _ => None
                     end) xs)
  | CatCol _ xs => ObjCol (map (fun _ => None) xs)
  | ObjCol xs => ObjCol (map (fun _ => None) xs)
  end.

(** ** Console output formatting *)

Definition str_of_nat (n : nat) : string :=
  DecimalString.NilEmpty.string_of_uint (Nat.to_uint n).

(** Digits in reverse order, a comma after every third one that is followed
    by another digit; [k] digits of the current group are already out. *)
Fixpoint group_rev (ds : list ascii) (k : nat) : list ascii :=
  match ds with
  | [] => []
  | d :: rest =>
      match rest, k with
      | [], _ => [d]
      | _, 2%nat => d :: ","%char :: group_rev rest 0
      | _, _ => d :: group_rev rest (S k)
      end
  end.

(** The format specification [{n:,}]. *)
Definition format_thousands (n : nat) : string :=
  string_of_list_ascii
    (rev (group_rev (rev (list_ascii_of_string (str_of_nat n))) 0)).

(** [s * n] on strings. *)
Fixpoint str_repeat (s : string) (n : nat) : string :=
  match n with
  | O => ""
  | S k => s ++ str_repeat s k
  end.

(** ** The environment and the effect monad *)

Inductive builder := ExecutiveDashboard | ModelPerformance | CustomerSegmentation.

(** What a run does that can be observed: a line on the console, or the
    entry into one of the three chart builders. *)
Inductive event :=
| Print (line : string)
| Enter (b : builder).

(** The Mersenne Twister behind [np.random]: seeding, and
    [random_sample(n)], which returns [n] floats and the next state. *)
Class Generator := {
  rng_state : Type;
  mt_seed : Z -> rng_state;
  mt_random_sample : rng_state -> nat -> list Q * rng_state
}.

(** The rest of what the script takes from outside: what [pd.read_csv]
    finds at a path, and whether the aggregations and matplotlib calls of a
    builder, up to [savefig] and [show], go through ([None]) or raise. *)
Class Host := {
  read_csv : string -> exn + DataFrame;
  plot_executive_dashboard : DataFrame -> option exn;
  plot_model_performance : DataFrame -> option exn;
  plot_customer_segmentation : DataFrame -> option (dict string) -> option exn
}.

(** [random_sample] returns as many floats as asked, each in [[0, 1)]. *)
Definition rng_uniform (G : Generator) : Prop :=
  forall st n,
    List.length (fst (mt_random_sample st n)) = n /\
    Forall (fun u => 0 <= u /\ u < 1)%Q (fst (mt_random_sample st n)).

Inductive result (A : Type) :=
| Ret (a : A)
| Raise (e : exn).
Arguments Ret {A} a.
Arguments Raise {A} e.

Section Monad.
Context {G : Generator}.

(** A computation reads and writes the global state of [np.random]; it
    returns or raises, and emits events on the way. *)
Definition M (A : Type) : Type := rng_state -> result A * list event * rng_state.

Definition ret {A} (a : A) : M A := fun st => (Ret a, [], st).

Definition raise {A} (e : exn) : M A := fun st => (Raise e, [], st).

Definition bind {A B} (m : M A) (k : A -> M B) : M B :=
  fun st =>
    match m st with
    | (Ret a, out, st') =>
        match k a st' with
        | (r, out', st'') => (r, (out ++ out')%list, st'')
        end
    | (Raise e, out, st') => (Raise e, out, st')
    end.

(** [try: body except Exception as e: handler(e)]. An exception that is no
    instance of [Exception] passes through. *)
Definition try_except {A} (body : M A) (handler : exn -> M A) : M A :=
  fun st =>
    match body st with
    | (Ret a, out, st') => (Ret a, out, st')
    | (Raise e, out, st') =>
        if is_Exception (exc_cls e) then
          match handler e st' with
          | (r, out', st'') => (r, (out ++ out')%list, st'')
          end
        else (Raise e, out, st')
    end.

(** [print(line)], on a console that accepts every line. *)
Definition print (line : string) : M unit := fun st => (Ret tt, [Print line], st).

Definition enter (b : builder) : M unit := fun st => (Ret tt, [Enter b], st).

Definition lift {A} (r : exn + A) : M A :=
  match r with
  | inl e => raise e
  | inr a => ret a
  end.

(** A call into matplotlib that returns nothing. *)
Definition external (o : option exn) : M unit :=
  match o with
  | Some e => raise e
  | None => ret tt
  end.

(** [np.random.seed(s)]. *)
Definition np_random_seed (s : Z) : M unit := fun _ => (Ret tt, [], mt_seed s).

(** [np.random.random_sample(n)]. *)
Definition np_random_sample (n : nat) : M (list Q) :=
  fun st => let (us, st') := mt_random_sample st n in (Ret us, [], st').

End Monad.

Notation "x <- m ;; k" := (bind m (fun x => k))
  (at level 61, m at next level, right associativity).
Notation "m ;; k" := (bind m (fun _ => k))
  (at level 61, right associativity).

(** ** [np.random.choice(a, size=n, p=p)] of the legacy [RandomState] *)

(** In exact arithmetic the compensated sum is the sum. *)
Definition kahan_sum (p : list Q) : Q := fold_left Qplus p 0%Q.

(** [sqrt(np.finfo(np.float64).eps)], that is [2 ^ -26]. *)
Definition atol : Q := 1 # 67108864.

Fixpoint last_opt {A} (l : list A) : option A :=
  match l with
  | [] => None
  | [x] => Some x
  | _ :: rest => last_opt rest
  end.

(** [a[idx]] for an index array: out of bounds raises. *)
Fixpoint take_all (a : list Z) (idx : list nat) : option (list Z) :=
  match idx with
  | [] => Some []
  | i :: rest =>
      match nth_error a i, take_all a rest with
      | Some x, Some xs => Some (x :: xs)
      | _, _ => None
      end
  end.

(** ** The synthetic confusion matrix of [create_model_performance_chart] *)

(** [float(z)] for a Python int below [2 ^ 63] in absolute value. *)
Definition float_of_int (z : Z) : float :=
  if (z <? 0)%Z then PrimFloat.opp (PrimFloat.of_uint63 (Uint63.of_Z (- z)))
  else PrimFloat.of_uint63 (Uint63.of_Z z).

(** [int(f)]: truncation toward zero; NaN and the infinities raise. *)
Definition int_of_float (f : float) : option Z :=
  match Prim2SF f with
  | S754_zero _ => Some 0%Z
  | S754_finite sg m e =>
      let mag := if (0 <=? e)%Z then (Z.pos m * 2 ^ e)%Z
                 else (Z.pos m / 2 ^ (- e))%Z in
      Some (if sg then (- mag)%Z else mag)
  | S754_infinity _ | S754_nan => None
  end.

Definition total_test : Z := 1000.

(** The rows [[true_negative, false_positive], [false_negative,
    true_positive]], computed line by line as the source does. *)
Definition confusion_data : option (list (list Z)) :=
  match int_of_float (PrimFloat.mul (float_of_int total_test) 0.265%float) with
  | None => None
  | Some actual_churn =>
      match int_of_float
              (PrimFloat.add
                 (PrimFloat.mul (float_of_int actual_churn) 0.819%float)
                 (PrimFloat.mul (float_of_int (total_test - actual_churn))
                                0.132%float)) with
      | None => None
      | Some predicted_churn =>
          match int_of_float
                  (PrimFloat.mul (float_of_int actual_churn) 0.819%float) with
          | None => None
          | Some true_positive =>
              let false_negative := (actual_churn - true_positive)%Z in
              let false_positive := (predicted_churn - true_positive)%Z in
              let true_negative :=
                (total_test - actual_churn - false_positive)%Z in
              Some [[true_negative; false_positive];
                    [false_negative; true_positive]]
          end
      end
  end.

(** ** The checks of [choice] on the weights, in binary64 *)

Definition weights64 : list float :=
  [0.158; 0.222; 0.216; 0.307; 0.097]%float.

(** NumPy's compensated summation, statement by statement. *)
Definition kahan_sum64 (darr : list float) : float :=
  match darr with
  | [] => 0%float
  | first :: rest =>
      fst (fold_left
             (fun (acc : float * float) (d : float) =>
                let (sum, c) := acc in
                let y := PrimFloat.sub d c in
                let t := PrimFloat.add sum y in
                (t, PrimFloat.sub (PrimFloat.sub t sum) y))
             rest (first, 0%float))
  end.

(** [np.sqrt(np.finfo(np.float64).eps)], with [eps = 2 ^ -52]. *)
Definition atol64 : float :=
  PrimFloat.sqrt (PrimFloat.div 1 (PrimFloat.of_uint63 4503599627370496)).

(** [abs(p_sum - 1.) > atol], the test that raises "probabilities do not sum
    to 1". *)
Definition sum_check_fails64 (p : list float) : bool :=
  PrimFloat.ltb atol64 (PrimFloat.abs (PrimFloat.sub (kahan_sum64 p) 1)).

Fixpoint cumsum64_from (acc : float) (p : list float) : list float :=
  match p with
  | [] => []
  | x :: rest => PrimFloat.add acc x :: cumsum64_from (PrimFloat.add acc x) rest
  end.

(** [cdf = p.cumsum(); cdf /= cdf[-1]]. *)
Definition cluster_cdf64 : list float :=
  match weights64 with
  | [] => []
  | first :: rest =>
      let cdf := first :: cumsum64_from first rest in
      map (fun c => PrimFloat.div c (last cdf 0%float)) cdf
  end.

Fixpoint increasing64 (l : list float) : bool :=
  match l with
  | x :: ((y :: _) as rest) => PrimFloat.ltb x y && increasing64 rest
  | _ => true
  end.

(** ** Binary64 values and the draw of [choice] *)

(** The binary64 value of a Python float written as the decimal [q]: the
    double nearest to [q], obtained as the correctly rounded quotient of
    numerator and denominator (both below [2 ^ 53] here, so exact). *)
Definition float_of_Q (q : Q) : float :=
  PrimFloat.div (float_of_int (Qnum q)) (float_of_int (Z.pos (Qden q))).

(** The value a binary64 number denotes. *)
Definition num_of_float (f : float) : num :=
  match Prim2SF f with
  | S754_zero _ => Fin 0
  | S754_finite sg m e =>
      let mag := if (0 <=? e)%Z then inject_Z (Z.pos m * 2 ^ e)
                 else Z.pos m # Pos.pow 2 (Z.to_pos (- e)) in
      Fin (if sg then - mag else mag)%Q
  | S754_infinity sg => if sg then NegInf else PosInf
  | S754_nan => NaN
  end.

(** [p.cumsum()] in binary64. *)
Definition cumsum64 (p : list float) : list float :=
  match p with
  | [] => []
  | first :: rest => first :: cumsum64_from first rest
  end.

(** [cdf = p.cumsum(); cdf /= cdf[-1]]; nothing when [p] is empty and
    [cdf[-1]] raises. *)
Definition normalized_cdf64 (p : list float) : option (list float) :=
  let cdf := cumsum64 p in
  match last_opt cdf with
  | None => None
  | Some total => Some (map (fun c => PrimFloat.div c total) cdf)
  end.

(** The index drawn for one uniform sample:
    [cdf.searchsorted(u, side="right")]. *)
Definition draw_index (cdf : list num) (u : Q) : nat :=
  searchsorted cdf (Fin u) Right.

Section Choice.
Context {G : Generator}.

(** The checks are made on the exact values of the weights (for the
    configured weights the binary64 check agrees, see [sum_check_fails64]);
    the cumulative weights are computed in binary64 as NumPy computes them,
    since their rounding decides which id a sample draws. *)
Definition choice (a : list Z) (size : nat) (p : list Q) : M (list Z) :=
  if (List.length a =? 0)%nat && negb (size =? 0)%nat then
    raise (mkExn ValueError "'a' cannot be empty unless no samples are taken")
  else if negb (List.length p =? List.length a)%nat then
    raise (mkExn ValueError "'a' and 'p' must have same size")
  else
    let p_sum := kahan_sum p in
    if existsb (fun x => Qltb x 0) p then
      raise (mkExn ValueError "probabilities are not non-negative")
    else if Qltb atol (Qabs (p_sum - 1)) then
      raise (mkExn ValueError "probabilities do not sum to 1")
    else
      match normalized_cdf64 (map float_of_Q p) with
      | None =>
          raise (mkExn IndexError
                   "index -1 is out of bounds for axis 0 with size 0")
      | Some cdf =>
          uniform_samples <- np_random_sample size;;
          let idx := map (draw_index (map num_of_float cdf)) uniform_samples in
          match take_all a idx with
          | Some r => ret r
          | None => raise (mkExn IndexError "index out of bounds")
          end
      end.

End Choice.

(** ** The script *)

Section Script.
Context {G : Generator} {H : Host}.

Definition cluster_probabilities : dict Q :=
  [(0%Z, 0.158%Q); (1%Z, 0.222%Q); (2%Z, 0.216%Q); (3%Z, 0.307%Q);
   (4%Z, 0.097%Q)].

Definition archetype_names : dict string :=
  [(0, "🤝 Social Connectors");
   (1, "⚡ Active Independents");
   (2, "🏆 Premium Loyalists");
   (3, "🚨 Flight Risks");
   (4, "🎲 Decision Pending")]%Z.

(** The body of the [try] block of [load_and_prepare_data]. *)
Definition load_body : M (DataFrame * dict string) :=
  df <- lift (read_csv "../datasets/gym_churn_us.csv");;
  print ("✅ Dataset loaded: " ++ format_thousands (nrows df) ++ " customers, "
         ++ str_of_nat (List.length (columns df)) ++ " features");;
  x <- lift (getitem df "Avg_additional_charges_total");;
  c <- lift (pd_cut x [0; 100; 200; 300; 600]%Q
               ["Basic"; "Standard"; "Premium"; "VIP"]);;
  let df := setitem df "customer_value_tier" c in
  x <- lift (getitem df "Avg_class_frequency_current_month");;
  c <- lift (pd_cut x [0; 1; 2; 3; 10]%Q
               ["Low"; "Moderate"; "High"; "Super Active"]);;
  let df := setitem df "activity_level" c in
  x <- lift (getitem df "Lifetime");;
  c <- lift (pd_cut x [0; 3; 6; 12; 50]%Q
               ["New (0-3m)"; "Developing (3-6m)"; "Established (6-12m)";
                "Veteran (12m+)"]);;
  let df := setitem df "tenure_category" c in
  np_random_seed 42;;
  clusters <- choice (keys cluster_probabilities) (nrows df)
                (values cluster_probabilities);;
  let df := setitem df "Cluster" (IntCol clusters) in
  x <- lift (getitem df "Cluster");;
  let df := setitem df "Archetype" (series_map x archetype_names) in
  print "✅ Data preparation completed successfully!";;
  ret (df, archetype_names).

Definition load_and_prepare_data
  : M (option DataFrame * option (dict string)) :=
  print "📊 Loading and preparing data for visualization...";;
  try_except
    (r <- load_body;; ret (Some (fst r), Some (snd r)))
    (fun e =>
       print ("❌ Error loading data: " ++ exc_str e);;
       ret (None, None)).

Definition create_executive_dashboard (df : DataFrame) : M unit :=
  enter ExecutiveDashboard;;
  print "📈 Creating executive dashboard...";;
  external (plot_executive_dashboard df);;
  print "✅ Executive dashboard saved as 'executive_dashboard.png'".

Definition create_model_performance_chart (df : DataFrame) : M unit :=
  enter ModelPerformance;;
  print "🤖 Creating model performance visualization...";;
  external (plot_model_performance df);;
  print "✅ Model performance chart saved as 'model_performance.png'".

Definition create_customer_segmentation_chart
  (df : DataFrame) (names : option (dict string)) : M unit :=
  enter CustomerSegmentation;;
  print "👥 Creating customer segmentation visualization...";;
  external (plot_customer_segmentation df names);;
  print "✅ Customer segmentation chart saved as 'customer_segmentation.png'".

Definition newline : string := String (ascii_of_nat 10) EmptyString.

(** The [try] block of [main] with its handler. *)
Definition chart_phase (df : DataFrame) (names : option (dict string))
  : M unit :=
  try_except
    (create_executive_dashboard df;;
     create_model_performance_chart df;;
     create_customer_segmentation_chart df names;;
     print (newline ++ "🎉 ALL VISUALIZATIONS GENERATED SUCCESSFULLY!");;
     print "📁 Files created:";;
     print "   • executive_dashboard.png";;
     print "   • model_performance.png";;
     print "   • customer_segmentation.png";;
     print (newline ++ "💡 These charts are ready for:");;
     print "   📋 GitHub README integration";;
     print "   📊 Executive presentations";;
     print "   📈 Business stakeholder meetings";;
     print "   🎯 Portfolio showcasing")
    (fun e => print ("❌ Error generating visualizations: " ++ exc_str e)).

Definition main : M unit :=
  print "🎨 BUSINESS VISUALIZATION GENERATOR";;
  print (str_repeat "=" 50);;
  print "🎯 Generating professional charts for GitHub showcase...";;
  r <- load_and_prepare_data;;
  match fst r with
  | None => print "❌ Failed to load data. Exiting..."
  | Some df => chart_phase df (snd r)
  end.

End Script.

(** ** A concrete environment, for running the script on examples *)

(** Six customers; the spend column holds the breakpoints 100 and 600, the
    lower edge 0, a value above the range and a missing value. *)
Definition sample_table : DataFrame :=
  mkDF 6
    [("Age", IntCol [29; 31; 28; 33; 26; 40]%Z);
     ("Contract_period", IntCol [6; 12; 1; 12; 1; 6]%Z);
     ("Avg_additional_charges_total",
       NumCol [Fin 14.22; Fin 100; Fin 600; Fin 0; Fin 650.5; NaN]);
     ("Lifetime", IntCol [3; 7; 2; 50; 0; 12]%Z);
     ("Avg_class_frequency_current_month",
       NumCol [Fin 0; Fin 1; Fin 1.91; Fin 3.35; Fin 10; Fin 2]);
     ("Churn", IntCol [0; 0; 1; 0; 1; 0]%Z)].

(** The same table without its [Lifetime] column. *)
Definition table_without_lifetime : DataFrame :=
  mkDF 6
    (filter (fun kc => negb (String.eqb (fst kc) "Lifetime"))
       (columns sample_table)).

(** A table that already has a column called [Cluster]. *)
Definition table_with_cluster : DataFrame :=
  mkDF 6 (("Cluster", ObjCol (repeat (Some "north") 6)) :: columns sample_table).

(** A small congruential generator standing in for the Mersenne Twister:
    the state is a counter, the samples are hundredths. *)
Definition counter_sample (st n : nat) : list Q * nat :=
  (map (fun i => Z.of_nat ((st * 7 + i * 37) mod 100) # 100) (seq 0 n),
   (st + n)%nat).

Definition counter_generator : Generator :=
  {| rng_state := nat;
     mt_seed := Z.to_nat;
     mt_random_sample := counter_sample |}.

Definition test_host (csv : exn + DataFrame) (p1 p2 p3 : option exn) : Host :=
  {| read_csv := fun path =>
       if String.eqb path "../datasets/gym_churn_us.csv" then csv
       else inl (mkExn FileNotFoundError
                   ("[Errno 2] No such file or directory: " ++ repr_str path));
     plot_executive_dashboard := fun _ => p1;
     plot_model_performance := fun _ => p2;
     plot_customer_segmentation := fun _ _ => p3 |}.

Definition no_such_file : exn :=
  mkExn FileNotFoundError
    "[Errno 2] No such file or directory: '../datasets/gym_churn_us.csv'".

Definition disk_full : exn :=
  mkExn OSError "[Errno 28] No space left on device".


(** ** Names for what the three binnings of [load_body] are called with *)

Inductive band := ValueTier | ActivityLevel | TenureCategory.

Definition band_source (b : band) : string :=
  match b with
  | ValueTier => "Avg_additional_charges_total"
  | ActivityLevel => "Avg_class_frequency_current_month"
  | TenureCategory => "Lifetime"
  end.

Definition band_column (b : band) : string :=
  match b with
  | ValueTier => "customer_value_tier"
  | ActivityLevel => "activity_level"
  | TenureCategory => "tenure_category"
  end.

Definition band_bins (b : band) : list Q :=
  match b with
  | ValueTier => [0; 100; 200; 300; 600]
  | ActivityLevel => [0; 1; 2; 3; 10]
  | TenureCategory => [0; 3; 6; 12; 50]
  end%Q.

Definition band_labels (b : band) : list string :=
  match b with
  | ValueTier => ["Basic"; "Standard"; "Premium"; "VIP"]
  | ActivityLevel => ["Low"; "Moderate"; "High"; "Super Active"]
  | TenureCategory =>
      ["New (0-3m)"; "Developing (3-6m)"; "Established (6-12m)";
       "Veteran (12m+)"]
  end.

(** The columns the feature deriver assigns, in the order of assignment. *)
Definition derived_columns : list string :=
  ["customer_value_tier"; "activity_level"; "tenure_category"; "Cluster";
   "Archetype"].

(** Row [i] of a numeric column, and of a categorical one. *)
Definition cell_num (df : DataFrame) (name : string) (i : nat) : option num :=
  match lookup_col name (columns df) with
  | Some c =>
      match to_numeric c with
      | Some xs => nth_error xs i
      | None => None
      end
  | None => None
  end.

(** Column [name] is there and numeric, with values [xs]. *)
Definition numeric_col (df : DataFrame) (name : string) (xs : list num) : Prop :=
  exists c, lookup_col name (columns df) = Some c /\ to_numeric c = Some xs.

Definition cell_label (df : DataFrame) (name : string) (i : nat)
  : option (option string) :=
  match lookup_col name (columns df) with
  | Some (CatCol _ xs) => nth_error xs i
  | _ => None
  end.

(** The normalised cumulative weights [choice] searches in: binary64
    numbers, given by the values they denote. *)
Definition cluster_cdf : list num :=
  match normalized_cdf64 (map float_of_Q (values cluster_probabilities)) with
  | Some cdf => map num_of_float cdf
  | None => []
  end.

(** The id [choice] returns for the uniform sample [u]. *)
Definition cluster_of_uniform (u : Q) : Z :=
  nth (draw_index cluster_cdf u) (keys cluster_probabilities) 0%Z.

(** The two cumulative weights around key [k]: the one before it ([lo], at
    first 0) and its own. *)
Fixpoint interval_of (ks : list Z) (cdf : list num) (lo : num) (k : Z)
  : option (num * num) :=
  match ks, cdf with
  | k' :: ks', c :: cdf' =>
      if (k' =? k)%Z then Some (lo, c) else interval_of ks' cdf' c k
  | _, _ => None
  end.

Definition cluster_interval (k : Z) : option (num * num) :=
  interval_of (keys cluster_probabilities) cluster_cdf (Fin 0) k.

(** The spacing of the uniform samples, [2 ^ -53]. *)
Definition sample_step : Q := 1 # 9007199254740992.

(** The binning read the other way round, bin [k] being
    [[b_k, b_(k+1))]: what [pd.cut] computes with [right=False]. *)
Definition cut_value_closed_left (bins : list Q) (labels : list string)
  (v : num) : option string :=
  let ids := searchsorted (map Fin bins) v Right in
  let na_mask := isna v || (ids =? List.length bins)%nat || (ids =? 0)%nat in
  let ids := if na_mask then 0%nat else ids in
  take_label labels (Z.of_nat ids - 1).

(** The two ends of the range a binning covers, and its last label. *)
Definition band_lower (b : band) : Q := hd 0%Q (band_bins b).
Definition band_upper (b : band) : Q := last (band_bins b) 0%Q.
Definition band_top (b : band) : option string := last_opt (band_labels b).

(** The table a computation hands back, the empty table if it hands back
    none. *)
Definition table_of {S : Type}
  (r : result (option DataFrame * option (dict string)) * list event * S)
  : DataFrame :=
  match fst (fst r) with
  | Ret (Some df, _) => df
  | _ => mkDF 0 []
  end.

(** The feature deriver run on [sample_table]. *)
Definition sample_host : Host := test_host (inr sample_table) None None None.

Definition sample_run
  : result (option DataFrame * option (dict string)) * list event * nat :=
  @load_and_prepare_data counter_generator sample_host 0%nat.

Definition sample_output : DataFrame := table_of sample_run.

(** The feature deriver run on [table_with_cluster]. *)
Definition cluster_host : Host :=
  test_host (inr table_with_cluster) None None None.

Definition cluster_run
  : result (option DataFrame * option (dict string)) * list event * nat :=
  @load_and_prepare_data counter_generator cluster_host 17%nat.

Definition cluster_output : DataFrame := table_of cluster_run.

(** Hosts where something goes wrong: no [Lifetime] column, no file, and a
    second chart that cannot be written. *)
Definition host_without_lifetime : Host :=
  test_host (inr table_without_lifetime) None None None.

Definition host_without_file : Host :=
  test_host (inl no_such_file) None None None.

Definition host_disk_full : Host :=
  test_host (inr sample_table) None (Some disk_full) None.

(** What the feature deriver has made of the loaded table [df]: the row
    count and every column with another name are kept, the three bands are
    the element-wise binning of their source columns, [Cluster] holds the
    drawn ids and [Archetype] their names. *)
Definition derived_from (df df' : DataFrame) (clusters : list Z) : Prop :=
  nrows df' = nrows df /\
  (forall name, ~ In name derived_columns ->
     lookup_col name (columns df') = lookup_col name (columns df)) /\
  (forall b, exists xs,
     numeric_col df (band_source b) xs /\
     lookup_col (band_column b) (columns df') =
       Some (CatCol (band_labels b)
               (map (cut_value (band_bins b) (band_labels b)) xs))) /\
  lookup_col "Cluster" (columns df') = Some (IntCol clusters) /\
  lookup_col "Archetype" (columns df') =
    Some (ObjCol (map (dict_get archetype_names) clusters)).

(** ** Vocabulary for the control flow *)

Definition result_of {A S : Type} (r : result A * list event * S) : result A :=
  fst (fst r).

Definition events_of {A S : Type} (r : result A * list event * S)
  : list event :=
  snd (fst r).

(** No chart builder was entered. *)
Definition only_prints (out : list event) : Prop :=
  forall b, ~ In (Enter b) out.

Section Vocabulary.
Context {G : Generator} {H : Host}.

(** A computation that enters no chart builder and raises only exceptions
    that satisfy [P]. *)
Definition behaves {A} (P : exn -> Prop) (m : M A) : Prop :=
  forall st,
    only_prints (events_of (m st)) /\
    forall e, result_of (m st) = Raise e -> P e.

(** The ways loading or derivation fails: [pd.read_csv] raises (file
    missing, unreadable or malformed), a column that a binning reads is
    absent, or anything else in the [try] block raises an [Exception]. *)
Inductive load_failure (st : rng_state) : Prop :=
| file_unreadable (e : exn) :
    read_csv "../datasets/gym_churn_us.csv" = inl e ->
    is_Exception (exc_cls e) = true ->
    load_failure st
| column_absent (df : DataFrame) (b : band) :
    read_csv "../datasets/gym_churn_us.csv" = inr df ->
    lookup_col (band_source b) (columns df) = None ->
    load_failure st
| derivation_raises (e : exn) (out : list event) (st' : rng_state) :
    load_body st = (Raise e, out, st') ->
    is_Exception (exc_cls e) = true ->
    load_failure st.

(** Whatever the file system and the plotting library raise is an instance
    of [Exception]: a failure, not an interrupt or an exit request. *)
Definition raises_failures_only : Prop :=
  (forall path e, read_csv path = inl e -> is_Exception (exc_cls e) = true) /\
  (forall df e,
     plot_executive_dashboard df = Some e -> is_Exception (exc_cls e) = true) /\
  (forall df e,
     plot_model_performance df = Some e -> is_Exception (exc_cls e) = true) /\
  (forall df names e,
     plot_customer_segmentation df names = Some e ->
     is_Exception (exc_cls e) = true).

End Vocabulary.

(** The three lines [main] prints before it loads anything. *)
Definition banner : list event :=
  [Print "🎨 BUSINESS VISUALIZATION GENERATOR";
   Print (str_repeat "=" 50);
   Print "🎯 Generating professional charts for GitHub showcase..."].

(** The order in which [load_body] bins the three columns. *)
Definition band_rank (b : band) : nat :=
  match b with
  | ValueTier => 0
  | ActivityLevel => 1
  | TenureCategory => 2
  end.

(** The line the loader prints once the file is read. *)
Definition loaded_line (df : DataFrame) : string :=
  "✅ Dataset loaded: " ++ format_thousands (nrows df) ++ " customers, "
  ++ str_of_nat (List.length (columns df)) ++ " features".

(** A host whose second builder is interrupted from the keyboard. *)
Definition interrupt : exn := mkExn KeyboardInterrupt "".

Definition host_interrupted : Host :=
  test_host (inr sample_table) None (Some interrupt) None.

(** A host whose third chart cannot be written. *)
Definition host_third_fails : Host :=
  test_host (inr sample_table) None None (Some disk_full).

(** What the chart phase emits when the three builders go through. *)
Definition full_run_events : list event :=
  [Enter ExecutiveDashboard;
   Print "📈 Creating executive dashboard...";
   Print "✅ Executive dashboard saved as 'executive_dashboard.png'";
   Enter ModelPerformance;
   Print "🤖 Creating model performance visualization...";
   Print "✅ Model performance chart saved as 'model_performance.png'";
   Enter CustomerSegmentation;
   Print "👥 Creating customer segmentation visualization...";
   Print "✅ Customer segmentation chart saved as 'customer_segmentation.png'";
   Print (newline ++ "🎉 ALL VISUALIZATIONS GENERATED SUCCESSFULLY!");
   Print "📁 Files created:";
   Print "   • executive_dashboard.png";
   Print "   • model_performance.png";
   Print "   • customer_segmentation.png";
   Print (newline ++ "💡 These charts are ready for:");
   Print "   📋 GitHub README integration";
   Print "   📊 Executive presentations";
   Print "   📈 Business stakeholder meetings";
   Print "   🎯 Portfolio showcasing"].

(** A host where reading the file is interrupted from the keyboard. *)
Definition host_interrupted_read : Host :=
  test_host (inl interrupt) None None None.

(** ** Computations at the head of the chart panels *)

(** The colour table of the module. *)
Definition BRAND_COLORS : list (string * string) :=
  [("primary", "#2E8B57"); ("secondary", "#DC143C"); ("accent", "#4169E1");
   ("warning", "#FF8C00"); ("neutral", "#708090"); ("success", "#32CD32");
   ("info", "#20B2AA")].

Fixpoint str_dict_get (d : list (string * string)) (k : string)
  : option string :=
  match d with
  | [] => None
  | (k', v) :: rest => if String.eqb k' k then Some v else str_dict_get rest k
  end.

(** [BRAND_COLORS[k]] for a key of the table (every key the builders use is
    one). *)
Definition brand (k : string) : string :=
  match str_dict_get BRAND_COLORS k with
  | Some c => c
  | None => ""
  end.

(** The dict [archetype_colors] of [create_customer_segmentation_chart]. *)
Definition archetype_colors : dict string :=
  [(0, brand "info"); (1, brand "primary"); (2, brand "success");
   (3, brand "secondary"); (4, brand "warning")]%Z.

(** The list [archetype_colors] of [create_executive_dashboard]. *)
Definition dashboard_archetype_colors : list string :=
  [brand "info"; brand "primary"; brand "success"; brand "secondary";
   brand "warning"].

(** [str(k)] for a Python int. *)
Definition str_of_Z (k : Z) : string :=
  DecimalString.NilZero.string_of_int (Z.to_int k).

(** Insertion into an increasing list without repetition. *)
Fixpoint insert_key (k : Z) (l : list Z) : list Z :=
  match l with
  | [] => [k]
  | x :: rest =>
      if (k <? x)%Z then k :: l
      else if (k =? x)%Z then l
      else x :: insert_key k rest
  end.

(** The distinct values in increasing order: the index of
    [value_counts().sort_index()] and of [groupby(...)] on an integer
    column. *)
Definition sorted_keys (xs : list Z) : list Z := fold_right insert_key [] xs.

Definition count_of (xs : list Z) (k : Z) : nat :=
  List.length (filter (Z.eqb k) xs).

(** [df['Cluster'].value_counts().sort_index()], on the ids of the column. *)
Definition segment_sizes (clusters : list Z) : list (Z * nat) :=
  map (fun k => (k, count_of clusters k)) (sorted_keys clusters).

(** [[d[i] for i in ks]]. *)
Fixpoint getitems {V} (d : dict V) (ks : list Z) : exn + list V :=
  match ks with
  | [] => inr []
  | k :: rest =>
      match dict_get d k with
      | None => inl (mkExn KeyError (str_of_Z k))
      | Some v =>
          match getitems d rest with
          | inl e => inl e
          | inr vs => inr (v :: vs)
          end
      end
  end.

(** [colors = [archetype_colors[i] for i in segment_sizes.index]]. *)
Definition segment_colors (clusters : list Z) : exn + list string :=
  getitems archetype_colors (keys (segment_sizes clusters)).

(** ASCII whitespace as [str.split] sees it. The strings split here hold no
    other whitespace; a string is the sequence of its UTF-8 bytes. *)
Definition is_space (c : ascii) : bool :=
  let n := nat_of_ascii c in
  ((9 <=? n) && (n <=? 13) || (28 <=? n) && (n <=? 32))%nat.

(** [cur] is the word being read, if any. *)
Fixpoint split_from (cur : option string) (s : string) : list string :=
  match s with
  | EmptyString =>
      match cur with
      | Some w => [w]
      | None => []
      end
  | String c rest =>
      if is_space c then
        match cur with
        | Some w => w :: split_from None rest
        | None => split_from None rest
        end
      else
        split_from
          (Some (match cur with
                 | Some w => w ++ String c EmptyString
                 | None => String c EmptyString
                 end)) rest
  end.

(** [s.split()]. *)
Definition py_split (s : string) : list string := split_from None s.

(** [s.split()[1]]. *)
Definition second_word (s : string) : exn + string :=
  match py_split s with
  | _ :: w :: _ => inr w
  | _ => inl (mkExn IndexError "list index out of range")
  end.

(** [[names[i].split()[1] for i in ks]], the tick labels of the
    segmentation chart. *)
Fixpoint tick_labels (names : dict string) (ks : list Z) : exn + list string :=
  match ks with
  | [] => inr []
  | k :: rest =>
      match dict_get names k with
      | None => inl (mkExn KeyError (str_of_Z k))
      | Some s =>
          match second_word s with
          | inl e => inl e
          | inr w =>
              match tick_labels names rest with
              | inl e => inl e
              | inr ws => inr (w :: ws)
              end
          end
      end
  end.

(** The number of points of each of the five scatter calls of panel 4:
    [len(df[df['Cluster'] == cluster_id]) for cluster_id in range(5)]. *)
Definition scatter_group_sizes (clusters : list Z) : list nat :=
  map (count_of clusters) [0; 1; 2; 3; 4]%Z.

(** Insertion into an increasing list of strings without repetition.
    Strings compare byte by byte, which on UTF-8 is the order of the code
    points that Python compares by. *)
Fixpoint insert_name (s : string) (l : list string) : list string :=
  match l with
  | [] => [s]
  | x :: rest =>
      if String.ltb s x then s :: l
      else if String.eqb s x then l
      else x :: insert_name s rest
  end.

(** The index of [df.groupby(col)] on a column of strings: the distinct
    values that are not missing, sorted. *)
Definition groupby_keys (xs : list (option string)) : list string :=
  fold_right (fun o acc =>
                match o with
                | Some s => insert_name s acc
                | None => acc
                end) [] xs.

(** Panel 3 of the dashboard: bar [i] stands for group [i] of
    [df.groupby('Archetype')] and takes colour [i] of the list. *)
Definition archetype_bar_colors (archetypes : list (option string))
  : list (string * string) :=
  combine (groupby_keys archetypes) dashboard_archetype_colors.

(** The first occurrences, in order. *)
Fixpoint unique (xs : list Z) : list Z :=
  match xs with
  | [] => []
  | x :: rest => x :: filter (fun y => negb (y =? x)%Z) (unique rest)
  end.

(** Insertion by decreasing count, before the entries that have no more. *)
Fixpoint insert_by_count (p : Z * nat) (l : list (Z * nat)) : list (Z * nat) :=
  match l with
  | [] => [p]
  | q :: rest =>
      if (snd q <=? snd p)%nat then p :: l
      else q :: insert_by_count p rest
  end.

(** [Series.value_counts()]: the distinct values with their counts, most
    frequent first, values of equal count in order of first appearance. *)
Definition value_counts (xs : list Z) : list (Z * nat) :=
  fold_right insert_by_count []
    (map (fun v => (v, count_of xs v)) (unique xs)).

(** Panel 1 of the dashboard:
    [ax1.pie(churn_data.values, labels=['Retained', 'Churned'], ...,
    explode=(0, 0.1))].  Wedge [i] has size [x[i]] and label [labels[i]];
    matplotlib refuses labels that are not as many as the sizes. *)
Definition churn_pie (churn : list Z) : exn + list (string * nat) :=
  let churn_data := value_counts churn in
  let x := map snd churn_data in
  let labels := ["Retained"; "Churned"] in
  if negb (List.length x =? List.length labels)%nat then
    inl (mkExn ValueError "'label' must be of length 'x'")
  else inr (combine labels x).

(** The groups of [df.groupby('Archetype')] when the ids marked [true] are
    the ones that occur, in the order of their names as strings. *)
Definition groups_present (b0 b1 b2 b3 b4 : bool) : list string :=
  ((if b1 then ["⚡ Active Independents"] else []) ++
   (if b4 then ["🎲 Decision Pending"] else []) ++
   (if b2 then ["🏆 Premium Loyalists"] else []) ++
   (if b3 then ["🚨 Flight Risks"] else []) ++
   (if b0 then ["🤝 Social Connectors"] else []))%list.

Definition occurs (k : Z) (xs : list Z) : bool := existsb (Z.eqb k) xs.

Definition in_range (k : Z) : bool := ((0 <=? k) && (k <=? 4))%Z.

(** No column of that name yet. *)
Definition absent (cols : list (string * column)) (name : string) : bool :=
  match lookup_col name cols with
  | None => true
  | Some _ => false
  end.

(** * Properties *)

(** ** Comparisons and binning of one value *)

Lemma Qltb_lt (x y : Q) : Qltb x y = true <-> (x < y)%Q.
Proof.
  unfold Qltb. rewrite negb_true_iff, <- not_true_iff_false, Qle_bool_iff.
  split; [apply Qnot_le_lt | apply Qlt_not_le].
Qed.

Lemma Qltb_ge (x y : Q) : Qltb x y = false <-> (y <= x)%Q.
Proof.
  unfold Qltb. rewrite negb_false_iff. apply Qle_bool_iff.
Qed.

Lemma Qle_bool_false (x y : Q) : Qle_bool x y = false <-> (y < x)%Q.
Proof.
  rewrite <- not_true_iff_false, Qle_bool_iff.
  split; [apply Qnot_le_lt | apply Qlt_not_le].
Qed.

(** With five edges the search stops at the first edge the value does not
    exceed; the label is the one of the interval that ends there. *)
Lemma cut_value_five (b0 b1 b2 b3 b4 : Q) (l0 l1 l2 l3 : string) (q : Q) :
  cut_value [b0; b1; b2; b3; b4] [l0; l1; l2; l3] (Fin q) =
  if Qle_bool q b0 then None
  else if Qle_bool q b1 then Some l0
  else if Qle_bool q b2 then Some l1
  else if Qle_bool q b3 then Some l2
  else if Qle_bool q b4 then Some l3
  else None.
Proof.
  unfold cut_value, Qltb; simpl. unfold Qltb.
  destruct (Qle_bool q b0); simpl; [reflexivity|].
  destruct (Qle_bool q b1); simpl; [reflexivity|].
  destruct (Qle_bool q b2); simpl; [reflexivity|].
  destruct (Qle_bool q b3); simpl; [reflexivity|].
  destruct (Qle_bool q b4); reflexivity.
Qed.

Lemma cut_value_missing_or_label (bins : list Q) (labels : list string)
  (v : num) :
  cut_value bins labels v = None \/
  exists s, cut_value bins labels v = Some s /\ In s labels.
Proof.
  unfold cut_value, take_label.
  match goal with |- context [(?z <? 0)%Z] => destruct (z <? 0)%Z end;
    [left; reflexivity|].
  match goal with |- context [nth_error labels ?n] =>
    destruct (nth_error labels n) as [s|] eqn:Hn end.
  - right. exists s. split; [reflexivity|]. eapply nth_error_In; eassumption.
  - left; reflexivity.
Qed.

Lemma cut_value_not_finite (bins : list Q) (labels : list string) (v : num) :
  (forall q, v <> Fin q) -> cut_value bins labels v = None.
Proof.
  intros Hv. unfold cut_value.
  destruct v as [| | |q]; simpl.
  - reflexivity.
  - assert (Hs : searchsorted (map Fin bins) NegInf Left = 0%nat)
      by (destruct bins; reflexivity).
    rewrite Hs. simpl. rewrite orb_true_r. reflexivity.
  - assert (Hs : searchsorted (map Fin bins) PosInf Left = List.length bins)
      by (induction bins; simpl; congruence).
    rewrite Hs, Nat.eqb_refl. reflexivity.
  - exfalso. apply (Hv q). reflexivity.
Qed.

(** ** Columns of a data frame *)

Lemma lookup_set_col_same (name : string) (c : column)
  (cols : list (string * column)) :
  lookup_col name (set_col name c cols) = Some c.
Proof.
  induction cols as [|[k old] rest IH]; simpl.
  - rewrite String.eqb_refl. reflexivity.
  - destruct (String.eqb k name) eqn:Hk; simpl; rewrite Hk; auto.
Qed.

Lemma lookup_set_col_other (name other : string) (c : column)
  (cols : list (string * column)) :
  name <> other ->
  lookup_col other (set_col name c cols) = lookup_col other cols.
Proof.
  intros Hne. induction cols as [|[k old] rest IH]; simpl.
  - destruct (String.eqb name other) eqn:Hk; [|reflexivity].
    apply String.eqb_eq in Hk. contradiction.
  - destruct (String.eqb k name) eqn:Hk; simpl.
    + apply String.eqb_eq in Hk. subst k.
      destruct (String.eqb name other) eqn:Hk'; [|reflexivity].
      apply String.eqb_eq in Hk'. contradiction.
    + rewrite IH. reflexivity.
Qed.

Lemma set_col_fresh (name : string) (c : column)
  (cols : list (string * column)) :
  lookup_col name cols = None -> set_col name c cols = (cols ++ [(name, c)])%list.
Proof.
  induction cols as [|[k old] rest IH]; simpl; intros Hl; [reflexivity|].
  destruct (String.eqb k name); [discriminate|].
  rewrite IH by assumption. reflexivity.
Qed.

Lemma lookup_col_app_fresh (name other : string) (c : column)
  (cols : list (string * column)) :
  name <> other -> lookup_col other cols = None ->
  lookup_col other (cols ++ [(name, c)])%list = None.
Proof.
  intros Hne. induction cols as [|[k old] rest IH]; simpl; intros Hl.
  - destruct (String.eqb name other) eqn:Hk; [|reflexivity].
    apply String.eqb_eq in Hk. contradiction.
  - destruct (String.eqb k other); [discriminate | auto].
Qed.

(** ** Index arrays and the categorical draw *)

Lemma take_all_inv (a : list Z) (idx : list nat) (r : list Z) :
  take_all a idx = Some r ->
  r = map (fun i => nth i a 0%Z) idx /\ Forall (fun x => In x a) r.
Proof.
  revert r. induction idx as [|i rest IH]; simpl; intros r Hr.
  - inversion Hr; subst. split; [reflexivity | constructor].
  - destruct (nth_error a i) as [x|] eqn:Hx; [|discriminate].
    destruct (take_all a rest) as [xs|]; [|discriminate].
    inversion Hr; subst. destruct (IH xs eq_refl) as [-> Hall].
    split.
    + f_equal. symmetry. apply nth_error_nth. assumption.
    + constructor; [eapply nth_error_In; eassumption | assumption].
Qed.

Lemma take_all_in_range (a : list Z) (idx : list nat) :
  Forall (fun i => (i < List.length a)%nat) idx ->
  exists r, take_all a idx = Some r /\ List.length r = List.length idx.
Proof.
  induction 1 as [|i rest Hi _ IH]; simpl.
  - exists []. split; reflexivity.
  - destruct IH as [xs [-> Hlen]].
    destruct (nth_error a i) as [x|] eqn:Hx.
    + exists (x :: xs). split; [reflexivity | simpl; congruence].
    + apply nth_error_None in Hx. lia.
Qed.

(** A sample below the last cumulative weight draws an index inside the
    population. *)
Lemma draw_index_bound (cdf : list num) (u t : Q) :
  last_opt cdf = Some (Fin t) -> (u < t)%Q ->
  (draw_index cdf u < List.length cdf)%nat.
Proof.
  unfold draw_index. induction cdf as [|x rest IH]; intros Hl Hu.
  - discriminate.
  - cbn [searchsorted]. destruct rest as [|y rest'].
    + cbn [last_opt] in Hl. inversion Hl; subst x.
      cbn [num_lt]. apply Qltb_lt in Hu. rewrite Hu. simpl. lia.
    + destruct (negb (num_lt (Fin u) x)); [|simpl; lia].
      cbn [List.length]. apply -> Nat.succ_lt_mono. apply IH; assumption.
Qed.

Section Run.
Context {G : Generator}.

Lemma bind_ret_inv {A B} (m : M A) (k : A -> M B) st b out st' :
  bind m k st = (Ret b, out, st') ->
  exists a out1 st1 out2,
    m st = (Ret a, out1, st1) /\ k a st1 = (Ret b, out2, st') /\
    out = (out1 ++ out2)%list.
Proof.
  unfold bind. destruct (m st) as [[[a|e] o] s]; [|discriminate].
  destruct (k a s) as [[r o'] s''] eqn:Hk. intros Heq.
  inversion Heq; subst. exists a, o, s, o'. auto.
Qed.

Lemma lift_ret_inv {A} (r : exn + A) st a out st' :
  lift r st = (Ret a, out, st') -> r = inr a /\ out = [] /\ st' = st.
Proof.
  destruct r as [e|x]; simpl; unfold raise, ret; intros Heq;
    inversion Heq; subst; auto.
Qed.

Lemma print_inv line st (u : unit) out st' :
  print line st = (Ret u, out, st') -> out = [Print line] /\ st' = st.
Proof. unfold print. intros Heq. inversion Heq; auto. Qed.

(** The checks of [choice] pass for the configured weights: what is left is
    the draw itself. *)
Lemma choice_clusters st n :
  choice (keys cluster_probabilities) n (values cluster_probabilities) st =
  match take_all (keys cluster_probabilities)
          (map (draw_index cluster_cdf) (fst (mt_random_sample st n))) with
  | Some r => (Ret r, [], snd (mt_random_sample st n))
  | None => (Raise (mkExn IndexError "index out of bounds"), [],
             snd (mt_random_sample st n))
  end.
Proof.
  unfold choice.
  replace (List.length (keys cluster_probabilities) =? 0)%nat with false
    by reflexivity.
  replace (negb (List.length (values cluster_probabilities)
                 =? List.length (keys cluster_probabilities))%nat) with false
    by reflexivity.
  replace (existsb (fun x => Qltb x 0) (values cluster_probabilities))
    with false by (vm_compute; reflexivity).
  replace (Qltb atol (Qabs (kahan_sum (values cluster_probabilities) - 1)))
    with false by (vm_compute; reflexivity).
  cbv beta iota zeta. rewrite andb_false_l.
  unfold cluster_cdf.
  destruct (normalized_cdf64 (map float_of_Q (values cluster_probabilities)))
    as [cdf|] eqn:Hcdf; [|vm_compute in Hcdf; discriminate].
  unfold bind, np_random_sample.
  destruct (mt_random_sample st n) as [us st1]; simpl.
  destruct (take_all _ (map (draw_index (map num_of_float cdf)) us));
    reflexivity.
Qed.

End Run.

(** ** What a successful run of the feature deriver has done *)

Lemma getitem_inv (df : DataFrame) (name : string) (c : column) :
  getitem df name = inr c -> lookup_col name (columns df) = Some c.
Proof.
  unfold getitem. destruct (lookup_col name (columns df)); intros Heq;
    inversion Heq; reflexivity.
Qed.

Lemma pd_cut_inv (x : column) (bins : list Q) (labels : list string)
  (c : column) :
  pd_cut x bins labels = inr c ->
  exists xs, to_numeric x = Some xs /\
             c = CatCol labels (map (cut_value bins labels) xs).
Proof.
  unfold pd_cut.
  destruct (negb (monotonic_increasing bins)); [discriminate|].
  destruct (has_duplicates bins && negb (List.length bins =? 2)%nat);
    [discriminate|].
  destruct (to_numeric x) as [xs|]; [|discriminate].
  destruct (negb (List.length labels =? List.length bins - 1)%nat);
    [discriminate|].
  intros Heq. inversion Heq. exists xs. auto.
Qed.

Ltac names_differ := apply String.eqb_neq; reflexivity.

Ltac bind_step Hrun :=
  let a := fresh "a" in
  let o1 := fresh "out" in
  let s1 := fresh "st" in
  let o2 := fresh "out" in
  let Hm := fresh "Hm" in
  let Ho := fresh "Hout" in
  apply bind_ret_inv in Hrun;
  destruct Hrun as (a & o1 & s1 & o2 & Hm & Hrun & Ho).

Section Prepared.
Context {G : Generator} {H : Host}.

Lemma load_body_ret st df' names out st' :
  load_body st = (Ret (df', names), out, st') ->
  exists df x1 x2 x3 clusters,
    read_csv "../datasets/gym_churn_us.csv" = inr df /\
    numeric_col df (band_source ValueTier) x1 /\
    numeric_col df (band_source ActivityLevel) x2 /\
    numeric_col df (band_source TenureCategory) x3 /\
    take_all (keys cluster_probabilities)
      (map (draw_index cluster_cdf)
         (fst (mt_random_sample (mt_seed 42) (nrows df)))) = Some clusters /\
    df' =
      setitem
        (setitem
           (setitem
              (setitem
                 (setitem df "customer_value_tier"
                    (CatCol (band_labels ValueTier)
                       (map (cut_value (band_bins ValueTier)
                               (band_labels ValueTier)) x1)))
                 "activity_level"
                 (CatCol (band_labels ActivityLevel)
                    (map (cut_value (band_bins ActivityLevel)
                            (band_labels ActivityLevel)) x2)))
              "tenure_category"
              (CatCol (band_labels TenureCategory)
                 (map (cut_value (band_bins TenureCategory)
                         (band_labels TenureCategory)) x3)))
           "Cluster" (IntCol clusters))
        "Archetype" (ObjCol (map (dict_get archetype_names) clusters)) /\
    names = archetype_names.
Proof.
  unfold load_body. intros Hrun.
  bind_step Hrun. apply lift_ret_inv in Hm. destruct Hm as (Hcsv & _ & ->).
  rename a into df.
  bind_step Hrun. apply print_inv in Hm. destruct Hm as (_ & ->).
  bind_step Hrun. apply lift_ret_inv in Hm. destruct Hm as (Hg1 & _ & ->).
  bind_step Hrun. apply lift_ret_inv in Hm. destruct Hm as (Hc1 & _ & ->).
  bind_step Hrun. apply lift_ret_inv in Hm. destruct Hm as (Hg2 & _ & ->).
  bind_step Hrun. apply lift_ret_inv in Hm. destruct Hm as (Hc2 & _ & ->).
  bind_step Hrun. apply lift_ret_inv in Hm. destruct Hm as (Hg3 & _ & ->).
  bind_step Hrun. apply lift_ret_inv in Hm. destruct Hm as (Hc3 & _ & ->).
  bind_step Hrun. unfold np_random_seed in Hm. inversion Hm; subst; clear Hm.
  bind_step Hrun. rewrite choice_clusters in Hm. cbn [setitem nrows] in Hm.
  destruct (take_all _ _) as [clusters|] eqn:Htake; [|discriminate].
  injection Hm as <- _ <-.
  bind_step Hrun. apply lift_ret_inv in Hm. destruct Hm as (Hg4 & _ & ->).
  bind_step Hrun. apply print_inv in Hm. destruct Hm as (_ & ->).
  unfold ret in Hrun. inversion Hrun; subst; clear Hrun.
  apply getitem_inv in Hg1, Hg2, Hg3, Hg4.
  apply pd_cut_inv in Hc1, Hc2, Hc3.
  destruct Hc1 as (x1 & Hn1 & ->), Hc2 as (x2 & Hn2 & ->),
           Hc3 as (x3 & Hn3 & ->).
  cbn [columns setitem nrows] in *.
  rewrite lookup_set_col_other in Hg2 by names_differ.
  rewrite !lookup_set_col_other in Hg3 by names_differ.
  rewrite lookup_set_col_same in Hg4. inversion Hg4; subst; clear Hg4.
  exists df, x1, x2, x3, clusters.
  unfold numeric_col. cbn [band_source].
  repeat split; try reflexivity; try assumption; eauto.
Qed.

Lemma load_success st df' names out st' :
  load_and_prepare_data st = (Ret (Some df', names), out, st') ->
  exists names0 out0,
    load_body st = (Ret (df', names0), out0, st') /\ names = Some names0.
Proof.
  unfold load_and_prepare_data, bind, print, try_except, ret.
  destruct (load_body st) as [[[r|e] o] s]; simpl.
  - intros Heq. inversion Heq; subst. exists (snd r), o.
    destruct r; auto.
  - destruct (is_Exception (exc_cls e)); simpl; intros Heq; inversion Heq.
Qed.

Lemma prepared_derived st df' names out st' :
  load_and_prepare_data st = (Ret (Some df', names), out, st') ->
  exists df clusters,
    read_csv "../datasets/gym_churn_us.csv" = inr df /\
    derived_from df df' clusters /\
    take_all (keys cluster_probabilities)
      (map (draw_index cluster_cdf)
         (fst (mt_random_sample (mt_seed 42) (nrows df)))) = Some clusters /\
    names = Some archetype_names.
Proof.
  intros Hrun. apply load_success in Hrun.
  destruct Hrun as (names0 & out0 & Hbody & ->).
  apply load_body_ret in Hbody.
  destruct Hbody as (df & x1 & x2 & x3 & clusters & Hcsv & H1 & H2 & H3
                     & Htake & -> & ->).
  exists df, clusters. repeat split; try assumption; try reflexivity.
  - intros name Hname. cbn [columns setitem].
    rewrite !lookup_set_col_other; [reflexivity|..];
      intros <-; apply Hname; simpl; tauto.
  - intros b. cbn [columns setitem].
    destruct b; [exists x1 | exists x2 | exists x3]; (split; [assumption|]);
      cbn [band_column];
      repeat (rewrite lookup_set_col_other by names_differ);
      apply lookup_set_col_same.
  - cbn [columns setitem].
    rewrite lookup_set_col_other by names_differ.
    apply lookup_set_col_same.
  - cbn [columns setitem]. apply lookup_set_col_same.
Qed.

End Prepared.

(** Row by row, a band is the binning of the value in its source column. *)
Lemma band_rowwise (df df' : DataFrame) (clusters : list Z) :
  derived_from df df' clusters ->
  forall b i v,
    cell_num df' (band_source b) i = Some v ->
    cell_label df' (band_column b) i =
      Some (cut_value (band_bins b) (band_labels b) v).
Proof.
  intros (_ & Hkeep & Hband & _) b i v Hv.
  destruct (Hband b) as (xs & (c & Hsrc & Hnum) & Hcol).
  unfold cell_label. rewrite Hcol.
  apply map_nth_error.
  unfold cell_num in Hv.
  rewrite (Hkeep (band_source b)), Hsrc, Hnum in Hv; [assumption|].
  destruct b; simpl; intuition discriminate.
Qed.

(** ** The three binnings *)

Ltac q_cases :=
  repeat match goal with
    | |- context [Qle_bool ?x ?y] =>
        let Hc := fresh "Hc" in
        destruct (Qle_bool x y) eqn:Hc;
        [apply Qle_bool_iff in Hc | apply Qle_bool_false in Hc]
    end.

(** Bin [k] of a binning is the interval [(b_k, b_(k+1)]]. *)
Lemma cut_band_interval (b : band) (k : nat) (q : Q) :
  (k < 4)%nat ->
  cut_value (band_bins b) (band_labels b) (Fin q) = nth_error (band_labels b) k
  <-> (nth k (band_bins b) 0 < q /\ q <= nth (S k) (band_bins b) 0)%Q.
Proof.
  intros Hk.
  destruct k as [|[|[|[|k]]]]; [| | | |lia];
    destruct b; cbn [band_bins band_labels nth nth_error];
    rewrite cut_value_five; q_cases;
    (split; [intros Heq; try discriminate; split; lra
            | intros [Hlo Hhi]; try reflexivity; exfalso; lra]).
Qed.

Lemma cut_band_outside (b : band) (q : Q) :
  (q <= band_lower b \/ band_upper b < q)%Q ->
  cut_value (band_bins b) (band_labels b) (Fin q) = None.
Proof.
  destruct b; cbn; rewrite cut_value_five; q_cases;
    intros [Hq|Hq]; try reflexivity; exfalso; lra.
Qed.

Section Bands.
Context {G : Generator} {H : Host}.

(** C1, as the code has it. In every table the feature deriver returns, and
    for each of the three binnings, the band of a row is label [k] exactly
    when the row's value lies in [(b_k, b_(k+1)]]: the intervals are open
    on the left and closed on the right.  So a value equal to an interior
    breakpoint [b_(k+1)] (100, 200, 300 for the spend; 1, 2, 3 for the
    attendance; 3, 6, 12 for the lifetime) gets label [k], the lower of the
    two adjacent bins. *)
Theorem breakpoint_in_lower_bin_right_closed st df' names out st' :
  load_and_prepare_data st = (Ret (Some df', names), out, st') ->
  forall b i q k,
    (k < 4)%nat ->
    cell_num df' (band_source b) i = Some (Fin q) ->
    (cell_label df' (band_column b) i = Some (nth_error (band_labels b) k)
     <-> (nth k (band_bins b) 0 < q /\ q <= nth (S k) (band_bins b) 0)%Q) /\
    ((k < 3)%nat -> (q == nth (S k) (band_bins b) 0)%Q ->
     cell_label df' (band_column b) i = Some (nth_error (band_labels b) k)).
Proof.
  intros Hrun b i q k Hk Hcell.
  destruct (prepared_derived _ _ _ _ _ Hrun) as (df & clusters & _ & Hd & _).
  rewrite (band_rowwise _ _ _ Hd b i _ Hcell).
  assert (Hiff := cut_band_interval b k q Hk).
  split.
  - split.
    + intros Heq. apply Hiff. congruence.
    + intros Hq. f_equal. apply Hiff. assumption.
  - intros Hk3 Hq. f_equal. apply Hiff.
    destruct k as [|[|[|k]]]; [| | |lia]; destruct b;
      cbn [band_bins nth] in *; lra.
Qed.

(** C2. In every table the feature deriver returns, each of the three band
    columns is a categorical column over its four labels, and every entry
    is either missing or one of those four labels. *)
Theorem band_entries_are_labels_or_missing st df' names out st' :
  load_and_prepare_data st = (Ret (Some df', names), out, st') ->
  forall b,
    List.length (band_labels b) = 4%nat /\
    exists xs,
      lookup_col (band_column b) (columns df') = Some (CatCol (band_labels b) xs) /\
      Forall (fun x => x = None \/ exists s, x = Some s /\ In s (band_labels b))
             xs.
Proof.
  intros Hrun b.
  destruct (prepared_derived _ _ _ _ _ Hrun) as (df & clusters & _ & Hd & _).
  destruct Hd as (_ & _ & Hband & _).
  destruct (Hband b) as (xs & _ & Hcol).
  split; [destruct b; reflexivity|].
  eexists. split; [exact Hcol|].
  apply Forall_forall. intros x Hx. apply in_map_iff in Hx.
  destruct Hx as (v & <- & _).
  destruct (cut_value_missing_or_label (band_bins b) (band_labels b) v)
    as [Hn|(s & Hs & Hin)]; [left; assumption|right; eauto].
Qed.

(** C3. In every table the feature deriver returns, and for each of the three
    binnings, a row whose value equals the upper end of the range (600 for
    the spend, 10 for the attendance, 50 for the lifetime) is in the top
    bin, and a row whose value is below the lower end 0 or above the upper
    end has a missing band. *)
Theorem range_end_in_top_bin_outside_missing st df' names out st' :
  load_and_prepare_data st = (Ret (Some df', names), out, st') ->
  forall b i q,
    cell_num df' (band_source b) i = Some (Fin q) ->
    ((q == band_upper b)%Q ->
     cell_label df' (band_column b) i = Some (band_top b)) /\
    ((q < band_lower b \/ band_upper b < q)%Q ->
     cell_label df' (band_column b) i = Some None) /\
    map band_lower [ValueTier; ActivityLevel; TenureCategory] = [0; 0; 0]%Q /\
    map band_upper [ValueTier; ActivityLevel; TenureCategory] = [600; 10; 50]%Q /\
    map band_top [ValueTier; ActivityLevel; TenureCategory] =
      [Some "VIP"; Some "Super Active"; Some "Veteran (12m+)"].
Proof.
  intros Hrun b i q Hcell.
  destruct (prepared_derived _ _ _ _ _ Hrun) as (df & clusters & _ & Hd & _).
  rewrite (band_rowwise _ _ _ Hd b i _ Hcell).
  split; [|split; [|repeat split]].
  - intros Hq. f_equal.
    replace (band_top b) with (nth_error (band_labels b) 3)
      by (destruct b; reflexivity).
    apply cut_band_interval; [lia|].
    destruct b; cbn in *; lra.
  - intros Hq. f_equal. apply cut_band_outside.
    destruct Hq as [Hq|Hq]; [left; lra | right; assumption].
Qed.

(** A row whose value is missing or infinite has a missing band. *)
Lemma missing_value_has_no_band st df' names out st' :
  load_and_prepare_data st = (Ret (Some df', names), out, st') ->
  forall b i v,
    cell_num df' (band_source b) i = Some v ->
    (forall q, v <> Fin q) ->
    cell_label df' (band_column b) i = Some None.
Proof.
  intros Hrun b i v Hcell Hv.
  destruct (prepared_derived _ _ _ _ _ Hrun) as (df & clusters & _ & Hd & _).
  rewrite (band_rowwise _ _ _ Hd b i _ Hcell).
  f_equal. apply cut_value_not_finite. assumption.
Qed.

(** C8, as the code has it. The feature deriver assigns five columns:
    value tier, activity level, tenure category, cluster id and archetype
    name.  The row count and every column of the loaded table with another
    name are unchanged; each of the five names is a column of the result;
    and when the loaded table has none of the five names, the result is the
    loaded columns followed by the five new ones, in that order. *)
Theorem five_columns_assigned_others_kept st df' names out st' :
  load_and_prepare_data st = (Ret (Some df', names), out, st') ->
  exists df,
    read_csv "../datasets/gym_churn_us.csv" = inr df /\
    nrows df' = nrows df /\
    List.length derived_columns = 5%nat /\
    (forall name, ~ In name derived_columns ->
       lookup_col name (columns df') = lookup_col name (columns df)) /\
    (forall name, In name derived_columns ->
       lookup_col name (columns df') <> None) /\
    ((forall name, In name derived_columns ->
        lookup_col name (columns df) = None) ->
     exists c1 c2 c3 c4 c5,
       columns df' =
         (columns df ++
          [("customer_value_tier", c1); ("activity_level", c2);
           ("tenure_category", c3); ("Cluster", c4); ("Archetype", c5)])%list).
Proof.
  intros Hrun.
  destruct (prepared_derived _ _ _ _ _ Hrun) as (df & clusters & Hcsv & Hd & _).
  destruct Hd as (Hrows & Hkeep & Hband & Hcl & Har).
  exists df. do 4 (split; [assumption || reflexivity|]).
  split.
  - intros name Hname. simpl in Hname.
    destruct (Hband ValueTier) as (? & _ & Hv).
    destruct (Hband ActivityLevel) as (? & _ & Ha).
    destruct (Hband TenureCategory) as (? & _ & Ht).
    cbn [band_column] in *.
    destruct Hname as [<-|[<-|[<-|[<-|[<-|[]]]]]]; congruence.
  - intros Hfresh.
    apply load_success in Hrun. destruct Hrun as (n0 & o0 & Hbody & _).
    apply load_body_ret in Hbody.
    destruct Hbody as (df0 & x1 & x2 & x3 & cl & Hcsv0 & _ & _ & _ & _ & -> & _).
    rewrite Hcsv in Hcsv0. inversion Hcsv0; subst df0.
    cbn [columns setitem].
    do 5 eexists.
    rewrite (set_col_fresh "customer_value_tier") by (apply Hfresh; simpl; tauto).
    rewrite (set_col_fresh "activity_level")
      by (apply lookup_col_app_fresh;
          [names_differ | apply Hfresh; simpl; tauto]).
    rewrite (set_col_fresh "tenure_category")
      by (repeat (apply lookup_col_app_fresh; [names_differ|]);
          apply Hfresh; simpl; tauto).
    rewrite (set_col_fresh "Cluster")
      by (repeat (apply lookup_col_app_fresh; [names_differ|]);
          apply Hfresh; simpl; tauto).
    rewrite (set_col_fresh "Archetype")
      by (repeat (apply lookup_col_app_fresh; [names_differ|]);
          apply Hfresh; simpl; tauto).
    rewrite <- !app_assoc. reflexivity.
Qed.

End Bands.

(** ** The simulated clusters and their names *)

Lemma dict_get_in {V} (d : dict V) (k : Z) (v : V) :
  dict_get d k = Some v -> In (k, v) d.
Proof.
  induction d as [|[k' v'] rest IH]; simpl; [discriminate|].
  destruct (k' =? k)%Z eqn:Hk.
  - apply Z.eqb_eq in Hk. intros Heq. inversion Heq; subst. left; reflexivity.
  - intros Heq. right. auto.
Qed.

Lemma archetype_of_cluster (k : Z) :
  In k (keys cluster_probabilities) ->
  (0 <= k <= 4)%Z /\
  exists s, dict_get archetype_names k = Some s /\ s <> "".
Proof.
  simpl. intros [<-|[<-|[<-|[<-|[<-|[]]]]]]; (split; [lia|]);
    eexists; (split; [reflexivity | discriminate]).
Qed.

(** The weights reach [choice] as the binary64 numbers that the source's
    literals denote. *)
Lemma weights_as_binary64 :
  map float_of_Q (values cluster_probabilities) = weights64.
Proof. vm_compute. reflexivity. Qed.

(** The samples that draw each id: those from the cumulative weight before
    the id up to its own, an interval as long as the weight of the id up to
    the rounding of binary64. *)
Lemma cluster_of_uniform_interval (k : Z) (w : Q) :
  In (k, w) cluster_probabilities ->
  exists lo hi,
    cluster_interval k = Some (Fin lo, Fin hi) /\
    (Qabs (hi - lo - w) <= sample_step)%Q /\
    forall u, (0 <= u)%Q -> (u < 1)%Q ->
      cluster_of_uniform u = k <-> (lo <= u /\ u < hi)%Q.
Proof.
  intros Hin. simpl in Hin.
  destruct Hin as [Hin|[Hin|[Hin|[Hin|[Hin|[]]]]]]; inversion Hin; subst k w;
    do 2 eexists;
    (split; [vm_compute; reflexivity|]);
    (split; [vm_compute; discriminate|]);
    intros u H0 H1;
    unfold cluster_of_uniform, draw_index;
    set (c := cluster_cdf); vm_compute in c; subst c;
    cbn [searchsorted num_lt keys map fst cluster_probabilities];
    unfold Qltb; rewrite !negb_involutive;
    q_cases; cbn [nth];
    (split; [intros Heq; try discriminate; split; lra
            | intros [Hlo Hhi]; try reflexivity; exfalso; lra]).
Qed.

(** The third cumulative weight is the double just below 0.596: a sample
    equal to it already draws id 3, a sample below it draws id 2. *)
Example draw_at_rounded_cumulative_weight :
  cluster_interval 2 =
    Some (Fin (6845471433603154 # 18014398509481984),
          Fin (5368290755825631 # 9007199254740992)) /\
  (5368290755825631 # 9007199254740992 < 0.596)%Q /\
  cluster_of_uniform (5368290755825631 # 9007199254740992) = 3%Z /\
  cluster_of_uniform (5368290755825630 # 9007199254740992) = 2%Z.
Proof. repeat split; vm_compute; reflexivity. Qed.

(** In binary64 too the normalised cumulative weights increase and end at
    exactly 1, so a sample below 1 is below the last of them. *)
Lemma cluster_cdf64_increasing_to_one :
  increasing64 cluster_cdf64 = true /\
  List.length cluster_cdf64 = 5%nat /\
  PrimFloat.eqb (last cluster_cdf64 0%float) 1%float = true.
Proof. repeat split; vm_compute; reflexivity. Qed.

(** The cumulative weights [choice] searches are those binary64 numbers. *)
Lemma cluster_cdf_is_binary64 : cluster_cdf = map num_of_float cluster_cdf64.
Proof. vm_compute. reflexivity. Qed.

Section Clusters.
Context {G : Generator}.

(** With samples in [[0, 1)], the draw returns one id per sample, each a
    key of the weight table. *)
Lemma clusters_drawn (st : rng_state) (n : nat) :
  rng_uniform G ->
  exists ids,
    take_all (keys cluster_probabilities)
      (map (draw_index cluster_cdf) (fst (mt_random_sample st n))) = Some ids /\
    List.length ids = n.
Proof.
  intros Hu. destruct (Hu st n) as [Hlen Hrange].
  destruct (take_all_in_range (keys cluster_probabilities)
              (map (draw_index cluster_cdf) (fst (mt_random_sample st n))))
    as (ids & Hids & Hl).
  - apply Forall_forall. intros i Hi. apply in_map_iff in Hi.
    destruct Hi as (u & <- & Hin).
    rewrite Forall_forall in Hrange. destruct (Hrange u Hin) as [_ Hlt].
    replace (List.length (keys cluster_probabilities))
      with (List.length cluster_cdf) by (vm_compute; reflexivity).
    assert (Hlast : last_opt cluster_cdf =
                    Some (Fin (4503599627370496 # 4503599627370496)))
      by (vm_compute; reflexivity).
    apply (draw_index_bound cluster_cdf u _ Hlast).
    eapply Qlt_le_trans; [exact Hlt|]. vm_compute. discriminate.
  - exists ids. split; [assumption|].
    rewrite Hl, length_map. assumption.
Qed.

End Clusters.

Section Archetypes.
Context {G : Generator} {H : Host}.

(** C4. The archetype lookup is defined exactly on the ids 0 to 4, gives a
    non-empty name for each, and gives different names for different ids.
    With uniform samples in [[0, 1)] the cluster draw returns one id per
    row, each in 0..4, so in every table the feature deriver returns the
    [Archetype] column holds a non-empty name in every row. *)
Theorem archetype_lookup_total_injective :
  rng_uniform G ->
  (forall k, (0 <= k <= 4)%Z ->
     exists s, dict_get archetype_names k = Some s /\ s <> "") /\
  (forall k s, dict_get archetype_names k = Some s -> (0 <= k <= 4)%Z) /\
  (forall j k s,
     dict_get archetype_names j = Some s ->
     dict_get archetype_names k = Some s -> j = k) /\
  (forall st n, exists ids st',
     choice (keys cluster_probabilities) n (values cluster_probabilities) st
       = (Ret ids, [], st') /\
     List.length ids = n /\
     Forall (fun c => 0 <= c <= 4)%Z ids) /\
  (forall st df' names out st',
     load_and_prepare_data st = (Ret (Some df', names), out, st') ->
     exists clusters,
       lookup_col "Cluster" (columns df') = Some (IntCol clusters) /\
       List.length clusters = nrows df' /\
       Forall (fun c => 0 <= c <= 4)%Z clusters /\
       lookup_col "Archetype" (columns df') =
         Some (ObjCol (map (dict_get archetype_names) clusters)) /\
       Forall (fun a => exists s, a = Some s /\ s <> "")
              (map (dict_get archetype_names) clusters)).
Proof.
  intros Hu.
  assert (Hids : forall ids, Forall (fun x => In x (keys cluster_probabilities)) ids ->
                 Forall (fun c => 0 <= c <= 4)%Z ids /\
                 Forall (fun a => exists s, a = Some s /\ s <> "")
                        (map (dict_get archetype_names) ids)).
  { induction 1 as [|c rest Hc _ [IH1 IH2]]; cbn [map]; [split; constructor|].
    destruct (archetype_of_cluster c Hc) as (Hr & s & Hs & Hne).
    split; constructor; try assumption. exists s. rewrite Hs. auto. }
  split; [|split; [|split; [|split]]].
  - intros k Hk. apply archetype_of_cluster. simpl.
    assert (k = 0 \/ k = 1 \/ k = 2 \/ k = 3 \/ k = 4)%Z by lia.
    intuition auto.
  - intros k s Hs. apply dict_get_in in Hs. simpl in Hs.
    destruct Hs as [Hs|[Hs|[Hs|[Hs|[Hs|[]]]]]]; inversion Hs; lia.
  - intros j k s Hj Hk. apply dict_get_in in Hj, Hk. simpl in Hj, Hk.
    destruct Hj as [Hj|[Hj|[Hj|[Hj|[Hj|[]]]]]]; inversion Hj; subst j s;
      destruct Hk as [Hk|[Hk|[Hk|[Hk|[Hk|[]]]]]]; inversion Hk;
      reflexivity.
  - intros st n. rewrite choice_clusters.
    destruct (clusters_drawn st n Hu) as (ids & Hids' & Hlen).
    rewrite Hids'. exists ids. eexists. split; [reflexivity|].
    split; [assumption|].
    apply take_all_inv in Hids'. destruct Hids' as [_ Hin].
    apply Hids. assumption.
  - intros st df' names out st' Hrun.
    destruct (prepared_derived _ _ _ _ _ Hrun)
      as (df & clusters & _ & Hd & Htake & _).
    destruct Hd as (Hrows & _ & _ & Hcl & Har).
    exists clusters.
    destruct (clusters_drawn (mt_seed 42) (nrows df) Hu) as (ids & Hids' & Hlen).
    rewrite Hids' in Htake. inversion Htake; subst ids.
    apply take_all_inv in Hids'. destruct Hids' as [_ Hin].
    destruct (Hids clusters Hin) as [Hr Hn].
    repeat split; try assumption. congruence.
Qed.

End Archetypes.

Section Determinism.
Context {G : Generator}.

(** C5. Take two runs of the feature deriver, on any two loaded tables with
    the same number of rows, from any two states of the generator, both
    returning a table.  Their [Cluster] columns are the same list: the image,
    sample by sample, of the stream that seed 42 gives for that row count.
    The id of a row depends on that row's sample alone, and a sample in
    [[0, 1)] gives id [k] exactly when it lies between the binary64
    cumulative weight before [k] and the one of [k]: an interval whose
    length is the weight configured for [k] (0.158, 0.222, 0.216, 0.307,
    0.097) up to the rounding of binary64, less than the spacing [2 ^ -53]
    of the samples. *)
Theorem cluster_ids_depend_on_row_count_only
  (H1 H2 : Host) st1 st2 t1 t2 df1 df2 names1 names2 out1 out2 st1' st2' :
  @read_csv H1 "../datasets/gym_churn_us.csv" = inr t1 ->
  @read_csv H2 "../datasets/gym_churn_us.csv" = inr t2 ->
  nrows t1 = nrows t2 ->
  @load_and_prepare_data G H1 st1 = (Ret (Some df1, names1), out1, st1') ->
  @load_and_prepare_data G H2 st2 = (Ret (Some df2, names2), out2, st2') ->
  (exists clusters,
     lookup_col "Cluster" (columns df1) = Some (IntCol clusters) /\
     lookup_col "Cluster" (columns df2) = Some (IntCol clusters) /\
     clusters = map cluster_of_uniform
                  (fst (mt_random_sample (mt_seed 42) (nrows t1)))) /\
  (forall k w,
     In (k, w) cluster_probabilities ->
     exists lo hi,
       cluster_interval k = Some (Fin lo, Fin hi) /\
       (Qabs (hi - lo - w) <= sample_step)%Q /\
       forall u, (0 <= u)%Q -> (u < 1)%Q ->
         cluster_of_uniform u = k <-> (lo <= u /\ u < hi)%Q) /\
  values cluster_probabilities = [0.158; 0.222; 0.216; 0.307; 0.097]%Q.
Proof.
  intros Hcsv1 Hcsv2 Hrows Hrun1 Hrun2.
  destruct (prepared_derived _ _ _ _ _ Hrun1)
    as (d1 & c1 & Hr1 & Hd1 & Htake1 & _).
  destruct (prepared_derived _ _ _ _ _ Hrun2)
    as (d2 & c2 & Hr2 & Hd2 & Htake2 & _).
  rewrite Hcsv1 in Hr1. rewrite Hcsv2 in Hr2.
  inversion Hr1; subst d1. inversion Hr2; subst d2.
  rewrite <- Hrows in Htake2. rewrite Htake1 in Htake2.
  inversion Htake2; subst c2.
  destruct Hd1 as (_ & _ & _ & Hc1 & _). destruct Hd2 as (_ & _ & _ & Hc2 & _).
  split; [|split; [|reflexivity]].
  - exists c1. repeat split; try assumption.
    apply take_all_inv in Htake1. destruct Htake1 as [-> _].
    rewrite map_map. reflexivity.
  - intros k w. apply cluster_of_uniform_interval.
Qed.

(** C10. The five weights add up to exactly 1, so the check of the sum
    passes (it also passes when the sum is taken in binary64): for every
    state of the generator and every number of rows the draw raises no
    [ValueError], and with samples in [[0, 1)] it returns. *)
Theorem weights_sum_to_one :
  Qred (kahan_sum (values cluster_probabilities)) = 1%Q /\
  Qltb atol (Qabs (kahan_sum (values cluster_probabilities) - 1)) = false /\
  sum_check_fails64 weights64 = false /\
  (forall st n,
     match fst (fst (choice (keys cluster_probabilities) n
                       (values cluster_probabilities) st)) with
     | Ret ids => True
     | Raise e => exc_cls e <> ValueError
     end) /\
  (rng_uniform G ->
   forall st n, exists ids,
     fst (fst (choice (keys cluster_probabilities) n
                 (values cluster_probabilities) st)) = Ret ids /\
     List.length ids = n).
Proof.
  split; [vm_compute; reflexivity|].
  split; [vm_compute; reflexivity|].
  split; [vm_compute; reflexivity|].
  split.
  - intros st n. rewrite choice_clusters.
    destruct (take_all _ _); simpl; [exact I | discriminate].
  - intros Hu st n. rewrite choice_clusters.
    destruct (clusters_drawn st n Hu) as (ids & -> & Hlen).
    exists ids. split; [reflexivity | assumption].
Qed.

End Determinism.

(** ** Control flow: what is printed, entered and raised *)

Section Flow.
Context {G : Generator} {H : Host}.

Lemma behaves_ret {A} P (a : A) : behaves P (ret a).
Proof. intros st. split; [intros b []|discriminate]. Qed.

Lemma behaves_raise {A} (P : exn -> Prop) (e : exn) :
  P e -> behaves P (@raise G A e).
Proof.
  intros He st. split; [intros b []|].
  intros e' Heq. inversion Heq; subst. assumption.
Qed.

Lemma behaves_print P line : behaves P (print line).
Proof.
  intros st. split; [|discriminate].
  intros b [Hb|[]]. discriminate.
Qed.

Lemma behaves_lift {A} (P : exn -> Prop) (r : exn + A) :
  (forall e, r = inl e -> P e) -> behaves P (lift r).
Proof.
  intros Hr. destruct r as [e|a]; simpl.
  - apply behaves_raise. auto.
  - apply behaves_ret.
Qed.

Lemma behaves_bind {A B} P (m : M A) (k : A -> M B) :
  behaves P m -> (forall a, behaves P (k a)) -> behaves P (bind m k).
Proof.
  intros Hm Hk st. specialize (Hm st). unfold bind.
  destruct (m st) as [[[a|e] o] s]; unfold events_of, result_of in *; simpl in *.
  - specialize (Hk a s). destruct (k a s) as [[r o'] s'']. simpl in *.
    destruct Hm as [Hm _], Hk as [Hk Hk']. split; [|assumption].
    intros b Hin. apply in_app_or in Hin.
    destruct Hin; [eapply Hm | eapply Hk]; eassumption.
  - destruct Hm as [Hm Hm']. split; [assumption|].
    intros e' Heq. inversion Heq; subst. apply Hm'. reflexivity.
Qed.

Lemma behaves_seed P s : behaves P (np_random_seed s).
Proof. intros st. split; [intros b []|discriminate]. Qed.

Lemma behaves_choice (P : exn -> Prop) n :
  (forall e, is_Exception (exc_cls e) = true -> P e) ->
  behaves P (choice (keys cluster_probabilities) n
               (values cluster_probabilities)).
Proof.
  intros HP st. rewrite choice_clusters.
  destruct (take_all _ _); (split; [intros b []|]);
    unfold result_of; simpl; intros e Heq; inversion Heq.
  apply HP. reflexivity.
Qed.

Lemma getitem_error (df : DataFrame) (name : string) (e : exn) :
  getitem df name = inl e -> e = key_error name.
Proof.
  unfold getitem. destruct (lookup_col name (columns df)); intros Heq;
    inversion Heq; reflexivity.
Qed.

Lemma pd_cut_error (x : column) bins labels (e : exn) :
  pd_cut x bins labels = inl e -> is_Exception (exc_cls e) = true.
Proof.
  unfold pd_cut.
  repeat match goal with
         | |- context [if ?c then _ else _] => destruct c
         | |- context [match to_numeric ?y with _ => _ end] =>
             destruct (to_numeric y)
         end;
    intros Heq; inversion Heq; reflexivity.
Qed.

(** The [try] block enters no builder, and raises what [pd.read_csv] raises
    or an [Exception] of its own. *)
Lemma load_body_behaves (P : exn -> Prop) :
  (forall e, is_Exception (exc_cls e) = true -> P e) ->
  (forall e, read_csv "../datasets/gym_churn_us.csv" = inl e -> P e) ->
  behaves P load_body.
Proof.
  intros HP Hcsv. unfold load_body.
  repeat first
    [ apply behaves_choice; assumption
    | apply behaves_seed
    | apply behaves_print
    | apply behaves_ret
    | apply behaves_bind; [|intros ?]
    | apply behaves_lift; intros e He;
      first [ apply Hcsv; assumption
            | apply HP; apply getitem_error in He; subst e; reflexivity
            | apply HP; eapply pd_cut_error; eassumption ] ].
Qed.

(** A failure of the [try] block is caught: the loader reports it and hands
    back the pair of [None]. *)
Lemma load_caught st e out st' :
  load_body st = (Raise e, out, st') ->
  is_Exception (exc_cls e) = true ->
  load_and_prepare_data st =
    (Ret (None, None),
     (Print "📊 Loading and preparing data for visualization..." :: out
      ++ [Print ("❌ Error loading data: " ++ exc_str e)])%list,
     st').
Proof.
  intros Hbody Hexc.
  unfold load_and_prepare_data, bind, try_except, print, ret.
  rewrite Hbody, Hexc. reflexivity.
Qed.

Lemma load_failure_raises st :
  load_failure st ->
  exists e out st',
    load_body st = (Raise e, out, st') /\ is_Exception (exc_cls e) = true.
Proof.
  intros [e Hcsv Hexc | df b Hcsv Hcol | e out st' Hbody Hexc].
  - exists e, [], st. split; [|assumption].
    unfold load_body, bind. rewrite Hcsv. reflexivity.
  - destruct (load_body st) as [[[r|e] out] st'] eqn:Hbody.
    + exfalso. destruct r as [df' names].
      apply load_body_ret in Hbody.
      destruct Hbody as (df0 & x1 & x2 & x3 & _ & Hcsv0 & H1 & H2 & H3 & _).
      rewrite Hcsv in Hcsv0. inversion Hcsv0; subst df0.
      destruct b; [destruct H1 as (c & Hc & _) | destruct H2 as (c & Hc & _)
                  | destruct H3 as (c & Hc & _)]; congruence.
    + exists e, out, st'. split; [reflexivity|].
      assert (Hb := load_body_behaves
                      (fun e => is_Exception (exc_cls e) = true)
                      (fun e He => He)).
      destruct (Hb (fun e He => ltac:(congruence)) st) as [_ Hraise].
      apply Hraise. unfold result_of. rewrite Hbody. reflexivity.
  - exists e, out, st'. auto.
Qed.

(** When nothing but failures can be raised, the loader always returns. *)
Lemma load_returns st :
  raises_failures_only ->
  exists r out st',
    load_and_prepare_data st = (Ret r, out, st') /\ only_prints out.
Proof.
  intros (Hcsv & _).
  destruct (load_body_behaves (fun e => is_Exception (exc_cls e) = true)
              (fun e He => He) (Hcsv _) st) as [Hquiet Hraise].
  unfold events_of, result_of in *.
  destruct (load_body st) as [[[r|e] o] s] eqn:Hbody; simpl in *.
  - exists (Some (fst r), Some (snd r)), (Print
      "📊 Loading and preparing data for visualization..." :: o)%list, s.
    split.
    + unfold load_and_prepare_data, bind, try_except, print, ret.
      rewrite Hbody. simpl. rewrite app_nil_r. reflexivity.
    + intros b [Hb|Hb]; [discriminate | exact (Hquiet b Hb)].
  - specialize (Hraise e eq_refl).
    rewrite (load_caught _ _ _ _ Hbody Hraise).
    do 3 eexists. split; [reflexivity|].
    intros b [Hb|Hb]; [discriminate|].
    apply in_app_or in Hb. destruct Hb as [Hb|[Hb|[]]];
      [exact (Hquiet b Hb) | discriminate].
Qed.

(** [main] up to the point where the loader has returned. *)
Lemma main_after_load st r out st' :
  load_and_prepare_data st = (Ret r, out, st') ->
  main st =
  match
    match fst r with
    | None => print "❌ Failed to load data. Exiting..."
    | Some df => chart_phase df (snd r)
    end st'
  with
  | (res, out', st'') => (res, (banner ++ out ++ out')%list, st'')
  end.
Proof.
  intros Hload. unfold main.
  unfold bind at 1 2 3 4. unfold print at 1 2 3. rewrite Hload.
  destruct (fst r) as [df|];
    [destruct (chart_phase _ _ st') as [[res o] s]|]; reflexivity.
Qed.

Ltac run_charts :=
  unfold chart_phase, try_except, create_executive_dashboard,
    create_model_performance_chart, create_customer_segmentation_chart,
    bind, enter, print, external, raise, ret.

Lemma chart_phase_first_fails df names e st :
  plot_executive_dashboard df = Some e ->
  is_Exception (exc_cls e) = true ->
  chart_phase df names st =
    (Ret tt,
     [Enter ExecutiveDashboard;
      Print "📈 Creating executive dashboard...";
      Print ("❌ Error generating visualizations: " ++ exc_str e)],
     st).
Proof.
  intros H1 He. run_charts. rewrite H1, He. reflexivity.
Qed.

Lemma chart_phase_second_fails df names e st :
  plot_executive_dashboard df = None ->
  plot_model_performance df = Some e ->
  is_Exception (exc_cls e) = true ->
  chart_phase df names st =
    (Ret tt,
     [Enter ExecutiveDashboard;
      Print "📈 Creating executive dashboard...";
      Print "✅ Executive dashboard saved as 'executive_dashboard.png'";
      Enter ModelPerformance;
      Print "🤖 Creating model performance visualization...";
      Print ("❌ Error generating visualizations: " ++ exc_str e)],
     st).
Proof.
  intros H1 H2 He. run_charts. rewrite H1, H2, He. reflexivity.
Qed.

Lemma chart_phase_third_fails df names e st :
  plot_executive_dashboard df = None ->
  plot_model_performance df = None ->
  plot_customer_segmentation df names = Some e ->
  is_Exception (exc_cls e) = true ->
  chart_phase df names st =
    (Ret tt,
     [Enter ExecutiveDashboard;
      Print "📈 Creating executive dashboard...";
      Print "✅ Executive dashboard saved as 'executive_dashboard.png'";
      Enter ModelPerformance;
      Print "🤖 Creating model performance visualization...";
      Print "✅ Model performance chart saved as 'model_performance.png'";
      Enter CustomerSegmentation;
      Print "👥 Creating customer segmentation visualization...";
      Print ("❌ Error generating visualizations: " ++ exc_str e)],
     st).
Proof.
  intros H1 H2 H3 He. run_charts. rewrite H1, H2, H3, He. reflexivity.
Qed.

Lemma chart_phase_returns df names st :
  raises_failures_only ->
  result_of (chart_phase df names st) = Ret tt.
Proof.
  intros (_ & Hp1 & Hp2 & Hp3). run_charts.
  destruct (plot_executive_dashboard df) as [e|] eqn:H1.
  { rewrite (Hp1 _ _ H1). reflexivity. }
  destruct (plot_model_performance df) as [e|] eqn:H2.
  { rewrite (Hp2 _ _ H2). reflexivity. }
  destruct (plot_customer_segmentation df names) as [e|] eqn:H3.
  { rewrite (Hp3 _ _ _ H3). reflexivity. }
  reflexivity.
Qed.

(** C6. When loading or derivation fails -- the file is missing, unreadable
    or malformed, a column that a binning reads (such as [Lifetime]) is
    absent, or anything else in the [try] block raises an [Exception] --
    the loader catches the exception, prints the error message as its last
    line and returns the pair of [None]; [main] then prints that it failed
    to load, returns, and has entered none of the three chart builders. *)
Theorem load_failure_aborts_before_charts st :
  load_failure st ->
  exists e,
    is_Exception (exc_cls e) = true /\
    result_of (load_and_prepare_data st) = Ret (None, None) /\
    last (events_of (load_and_prepare_data st)) (Print "") =
      Print ("❌ Error loading data: " ++ exc_str e) /\
    result_of (main st) = Ret tt /\
    events_of (main st) =
      (banner ++ events_of (load_and_prepare_data st)
       ++ [Print "❌ Failed to load data. Exiting..."])%list /\
    only_prints (events_of (main st)).
Proof.
  intros Hfail.
  destruct (load_failure_raises st Hfail) as (e & out & st' & Hbody & Hexc).
  assert (Hload := load_caught _ _ _ _ Hbody Hexc).
  assert (Hmain := main_after_load _ _ _ _ Hload).
  cbn [fst] in Hmain. unfold print in Hmain.
  destruct (load_body_behaves (fun _ => True) (fun _ _ => I) (fun _ _ => I) st)
    as [Hquiet _].
  unfold events_of in Hquiet. rewrite Hbody in Hquiet. simpl in Hquiet.
  exists e. rewrite Hmain, Hload. unfold result_of, events_of. cbn [fst snd].
  repeat split; try assumption.
  - rewrite app_comm_cons. apply last_last.
  - intros b Hin.
    repeat (apply in_app_or in Hin; destruct Hin as [Hin|Hin]);
      simpl in Hin; try (exact (Hquiet b Hin));
      repeat (destruct Hin as [Hin|Hin]; try discriminate; try contradiction).
    apply in_app_or in Hin. destruct Hin as [Hin|[Hin|[]]];
      [exact (Hquiet b Hin) | discriminate].
Qed.

(** C7. One [try] wraps the three builders. When nothing but failures
    (instances of [Exception]) can be raised, [main] returns normally in
    every case.  If the first builder raises, the other two are never
    entered; if the first goes through and the second raises, the third is
    never entered; if the first two go through and the third raises, it was
    entered after them.  In each of the three cases the last line printed
    reports the failure, so the summary was not printed after it. *)
Theorem chart_failure_skips_rest_main_returns st :
  raises_failures_only ->
  result_of (main st) = Ret tt /\
  (forall df names e,
     result_of (load_and_prepare_data st) = Ret (Some df, names) ->
     plot_executive_dashboard df = None ->
     plot_model_performance df = Some e ->
     In (Enter ModelPerformance) (events_of (main st)) /\
     ~ In (Enter CustomerSegmentation) (events_of (main st)) /\
     last (events_of (main st)) (Print "") =
       Print ("❌ Error generating visualizations: " ++ exc_str e)) /\
  (forall df names e,
     result_of (load_and_prepare_data st) = Ret (Some df, names) ->
     plot_executive_dashboard df = Some e ->
     ~ In (Enter ModelPerformance) (events_of (main st)) /\
     ~ In (Enter CustomerSegmentation) (events_of (main st)) /\
     last (events_of (main st)) (Print "") =
       Print ("❌ Error generating visualizations: " ++ exc_str e)) /\
  (forall df names e,
     result_of (load_and_prepare_data st) = Ret (Some df, names) ->
     plot_executive_dashboard df = None ->
     plot_model_performance df = None ->
     plot_customer_segmentation df names = Some e ->
     In (Enter ExecutiveDashboard) (events_of (main st)) /\
     In (Enter ModelPerformance) (events_of (main st)) /\
     In (Enter CustomerSegmentation) (events_of (main st)) /\
     last (events_of (main st)) (Print "") =
       Print ("❌ Error generating visualizations: " ++ exc_str e)).
Proof.
  intros Hfail.
  destruct (load_returns st Hfail) as (r & out & st' & Hload & Hquiet).
  assert (Hmain := main_after_load _ _ _ _ Hload).
  assert (Hnot : forall b tail,
             ~ In (Enter b) tail -> ~ In (Enter b) (banner ++ out ++ tail)%list).
  { intros b tail Ht Hin.
    apply in_app_or in Hin. destruct Hin as [Hin|Hin].
    - simpl in Hin. intuition discriminate.
    - apply in_app_or in Hin. destruct Hin as [Hin|Hin];
        [exact (Hquiet b Hin) | exact (Ht Hin)]. }
  split; [|split; [|split]].
  - rewrite Hmain. destruct (fst r) as [df|].
    + assert (Hret := chart_phase_returns df (snd r) st' Hfail).
      destruct (chart_phase df (snd r) st') as [[res o] s].
      exact Hret.
    + reflexivity.
  - intros df names e Hres H1 H2.
    unfold result_of in Hres. rewrite Hload in Hres. cbn [fst] in Hres.
    inversion Hres; subst r. cbn [fst snd] in Hmain.
    destruct Hfail as (_ & _ & Hp2 & _).
    rewrite (chart_phase_second_fails df names e st' H1 H2 (Hp2 _ _ H2))
      in Hmain.
    rewrite Hmain. unfold events_of. cbn [fst snd].
    split; [|split].
    + apply in_or_app. right. apply in_or_app. right. simpl. tauto.
    + apply Hnot. simpl. intuition discriminate.
    + rewrite !app_assoc.
      match goal with |- last (?pre ++ ?l)%list _ = _ =>
        change l with ((removelast l) ++ [last l (Print "")])%list end.
      rewrite app_assoc. apply last_last.
  - intros df names e Hres H1.
    unfold result_of in Hres. rewrite Hload in Hres. cbn [fst] in Hres.
    inversion Hres; subst r. cbn [fst snd] in Hmain.
    destruct Hfail as (_ & Hp1 & _).
    rewrite (chart_phase_first_fails df names e st' H1 (Hp1 _ _ H1)) in Hmain.
    rewrite Hmain. unfold events_of. cbn [fst snd].
    split; [|split].
    + apply Hnot. simpl. intuition discriminate.
    + apply Hnot. simpl. intuition discriminate.
    + rewrite !app_assoc.
      match goal with |- last (?pre ++ ?l)%list _ = _ =>
        change l with ((removelast l) ++ [last l (Print "")])%list end.
      rewrite app_assoc. apply last_last.
  - intros df names e Hres H1 H2 H3.
    unfold result_of in Hres. rewrite Hload in Hres. cbn [fst] in Hres.
    inversion Hres; subst r. cbn [fst snd] in Hmain.
    destruct Hfail as (_ & _ & _ & Hp3).
    rewrite (chart_phase_third_fails df names e st' H1 H2 H3 (Hp3 _ _ _ H3))
      in Hmain.
    rewrite Hmain. unfold events_of. cbn [fst snd].
    split; [|split; [|split]];
      try (apply in_or_app; right; apply in_or_app; right; simpl; tauto).
    rewrite !app_assoc.
    match goal with |- last (?pre ++ ?l)%list _ = _ =>
      change l with ((removelast l) ++ [last l (Print "")])%list end.
    rewrite app_assoc. apply last_last.
Qed.

End Flow.

(** ** The confusion matrix *)

(** C9. The confusion matrix that the model-performance chart builds from
    its literals (1000 samples, churn rate 0.265, recall 0.819, factor
    0.132), evaluated in binary64 arithmetic, is
    [[638, 97], [48, 217]]: the four cells are nonnegative integers and
    add up to the 1000 samples. *)
Theorem confusion_matrix_cells :
  exists tn fp fn tp : Z,
    confusion_data = Some [[tn; fp]; [fn; tp]] /\
    (tn, fp, fn, tp) = (638, 97, 48, 217)%Z /\
    (0 <= tn /\ 0 <= fp /\ 0 <= fn /\ 0 <= tp)%Z /\
    (tn + fp + fn + tp = total_test)%Z /\
    total_test = 1000%Z.
Proof.
  exists 638%Z, 97%Z, 48%Z, 217%Z.
  split; [vm_compute; reflexivity|].
  split; [reflexivity|].
  split; [lia|].
  split; reflexivity.
Qed.

(** ** The properties at work on the sample table *)

Lemma counter_generator_uniform : rng_uniform counter_generator.
Proof.
  intros st n. change (fst (mt_random_sample st n))
    with (map (fun i => Z.of_nat ((st * 7 + i * 37) mod 100) # 100) (seq 0 n)).
  split.
  - rewrite length_map, length_seq. reflexivity.
  - apply Forall_forall. intros u Hu. apply in_map_iff in Hu.
    destruct Hu as (i & <- & _).
    assert (Hm : ((st * 7 + i * 37) mod 100 < 100)%nat)
      by (apply Nat.mod_upper_bound; discriminate).
    revert Hm. generalize ((st * 7 + i * 37) mod 100)%nat. intros m Hm.
    unfold Qle, Qlt. cbn [Qnum Qden]. lia.
Qed.

Lemma test_host_failures (csv : exn + DataFrame) (p1 p2 p3 : option exn) :
  (forall e, csv = inl e -> is_Exception (exc_cls e) = true) ->
  (forall e, p1 = Some e -> is_Exception (exc_cls e) = true) ->
  (forall e, p2 = Some e -> is_Exception (exc_cls e) = true) ->
  (forall e, p3 = Some e -> is_Exception (exc_cls e) = true) ->
  @raises_failures_only (test_host csv p1 p2 p3).
Proof.
  intros Hcsv H1 H2 H3. unfold raises_failures_only. simpl.
  repeat split; auto.
  intros path e.
  destruct (String.eqb path "../datasets/gym_churn_us.csv"); [apply Hcsv|].
  intros Heq. inversion Heq. reflexivity.
Qed.

(** Row 1 of the sample spends exactly 100 and is in the "Basic" tier. *)
Lemma breakpoint_in_lower_bin_witness :
  cell_num sample_output (band_source ValueTier) 1 = Some (Fin 100) /\
  cell_label sample_output (band_column ValueTier) 1 = Some (Some "Basic").
Proof.
  split; [vm_compute; reflexivity|].
  refine (proj2 (@breakpoint_in_lower_bin_right_closed
                   counter_generator sample_host 0%nat sample_output
                   (Some archetype_names) (events_of sample_run)
                   (snd sample_run) _ ValueTier 1%nat 100%Q 0%nat _ _) _ _).
  - vm_compute; reflexivity.
  - lia.
  - vm_compute; reflexivity.
  - lia.
  - reflexivity.
Defined.

(** C1 as stated fails. The spend 100 of row 1 is in "Basic", the bin that
    ends at 100; under a closed-left, open-right reading 100 belongs to
    [[100, 200)], which is "Standard". *)
Lemma boundary_not_closed_left :
  cell_num sample_output (band_source ValueTier) 1 = Some (Fin 100) /\
  cell_label sample_output (band_column ValueTier) 1 = Some (Some "Basic") /\
  cut_value_closed_left (band_bins ValueTier) (band_labels ValueTier) (Fin 100)
    = Some "Standard" /\
  cell_label sample_output (band_column ValueTier) 1 <>
    Some (cut_value_closed_left (band_bins ValueTier) (band_labels ValueTier)
            (Fin 100)).
Proof.
  repeat split; try (vm_compute; reflexivity).
  vm_compute. discriminate.
Qed.

Lemma band_entries_witness :
  List.length (band_labels ActivityLevel) = 4%nat /\
  exists xs,
    lookup_col (band_column ActivityLevel) (columns sample_output) =
      Some (CatCol (band_labels ActivityLevel) xs) /\
    Forall (fun x => x = None \/
                     exists s, x = Some s /\ In s (band_labels ActivityLevel))
           xs.
Proof.
  refine (@band_entries_are_labels_or_missing
            counter_generator sample_host 0%nat sample_output
            (Some archetype_names) (events_of sample_run) (snd sample_run)
            _ ActivityLevel).
  vm_compute; reflexivity.
Defined.

(** Row 2 of the sample spends exactly 600 and is in the "VIP" tier; row 4
    spends 650.5 and has no tier. *)
Lemma range_end_witness :
  cell_label sample_output (band_column ValueTier) 2 = Some (Some "VIP") /\
  cell_label sample_output (band_column ValueTier) 4 = Some None.
Proof.
  split.
  - refine (proj1 (@range_end_in_top_bin_outside_missing
                     counter_generator sample_host 0%nat sample_output
                     (Some archetype_names) (events_of sample_run)
                     (snd sample_run) _ ValueTier 2%nat 600%Q _) _);
      [vm_compute; reflexivity | vm_compute; reflexivity | reflexivity].
  - refine (proj1 (proj2 (@range_end_in_top_bin_outside_missing
                     counter_generator sample_host 0%nat sample_output
                     (Some archetype_names) (events_of sample_run)
                     (snd sample_run) _ ValueTier 4%nat 650.5%Q _)) _);
      [vm_compute; reflexivity | vm_compute; reflexivity |].
    right. vm_compute. reflexivity.
Defined.

Lemma archetype_lookup_witness :
  rng_uniform counter_generator /\
  lookup_col "Archetype" (columns sample_output) =
    Some (ObjCol [Some "🎲 Decision Pending"; Some "⚡ Active Independents";
                  Some "🚨 Flight Risks"; Some "🤝 Social Connectors";
                  Some "🏆 Premium Loyalists"; Some "🚨 Flight Risks"]) /\
  exists clusters,
    lookup_col "Cluster" (columns sample_output) = Some (IntCol clusters) /\
    List.length clusters = nrows sample_output /\
    Forall (fun c => 0 <= c <= 4)%Z clusters /\
    lookup_col "Archetype" (columns sample_output) =
      Some (ObjCol (map (dict_get archetype_names) clusters)) /\
    Forall (fun a => exists s, a = Some s /\ s <> "")
           (map (dict_get archetype_names) clusters).
Proof.
  split; [exact counter_generator_uniform|].
  split; [vm_compute; reflexivity|].
  refine (proj2 (proj2 (proj2 (proj2
            (@archetype_lookup_total_injective counter_generator sample_host
               counter_generator_uniform))))
            0%nat sample_output (Some archetype_names) (events_of sample_run)
            (snd sample_run) _).
  vm_compute; reflexivity.
Defined.

(** Two different tables of six rows, two different states of the
    generator: the same cluster ids. *)
Lemma cluster_ids_witness :
  nrows sample_table = nrows table_with_cluster /\
  columns sample_table <> columns table_with_cluster /\
  lookup_col "Cluster" (columns sample_output) = Some (IntCol [4; 1; 3; 0; 2; 3]%Z) /\
  lookup_col "Cluster" (columns cluster_output) = Some (IntCol [4; 1; 3; 0; 2; 3]%Z) /\
  exists clusters,
    lookup_col "Cluster" (columns sample_output) = Some (IntCol clusters) /\
    lookup_col "Cluster" (columns cluster_output) = Some (IntCol clusters) /\
    clusters = map cluster_of_uniform
                 (fst (@mt_random_sample counter_generator
                         (@mt_seed counter_generator 42) (nrows sample_table))).
Proof.
  split; [reflexivity|].
  split; [discriminate|].
  split; [vm_compute; reflexivity|].
  split; [vm_compute; reflexivity|].
  refine (proj1 (@cluster_ids_depend_on_row_count_only counter_generator
                   sample_host cluster_host
                   0%nat 17%nat sample_table table_with_cluster
                   sample_output cluster_output
                   (Some archetype_names) (Some archetype_names)
                   (events_of sample_run) (events_of cluster_run)
                   (snd sample_run) (snd cluster_run) _ _ _ _ _));
    vm_compute; reflexivity.
Defined.

(** Without the [Lifetime] column the third binning raises a [KeyError]; the
    run prints two error lines and enters no builder. *)
Lemma load_failure_witness :
  @load_failure counter_generator host_without_lifetime 5%nat /\
  @main counter_generator host_without_lifetime 5%nat =
    (Ret tt,
     (banner ++
      [Print "📊 Loading and preparing data for visualization...";
       Print "✅ Dataset loaded: 6 customers, 5 features";
       Print "❌ Error loading data: 'Lifetime'";
       Print "❌ Failed to load data. Exiting..."])%list,
     5%nat) /\
  exists e,
    is_Exception (exc_cls e) = true /\
    result_of (@load_and_prepare_data counter_generator host_without_lifetime
                 5%nat) = Ret (None, None) /\
    last (events_of (@load_and_prepare_data counter_generator
                       host_without_lifetime 5%nat)) (Print "") =
      Print ("❌ Error loading data: " ++ exc_str e) /\
    result_of (@main counter_generator host_without_lifetime 5%nat) = Ret tt /\
    events_of (@main counter_generator host_without_lifetime 5%nat) =
      (banner ++
       events_of (@load_and_prepare_data counter_generator
                    host_without_lifetime 5%nat)
       ++ [Print "❌ Failed to load data. Exiting..."])%list /\
    only_prints (events_of (@main counter_generator host_without_lifetime
                              5%nat)).
Proof.
  assert (Hfail : @load_failure counter_generator host_without_lifetime 5%nat).
  { apply (@column_absent counter_generator host_without_lifetime 5%nat
             table_without_lifetime TenureCategory); reflexivity. }
  split; [exact Hfail|].
  split; [vm_compute; reflexivity|].
  exact (@load_failure_aborts_before_charts counter_generator
           host_without_lifetime 5%nat Hfail).
Defined.

(** With a missing file the run ends the same way. *)
Example missing_file_run :
  @main counter_generator host_without_file 5%nat =
    (Ret tt,
     (banner ++
      [Print "📊 Loading and preparing data for visualization...";
       Print ("❌ Error loading data: [Errno 2] No such file or directory: "
              ++ "'../datasets/gym_churn_us.csv'");
       Print "❌ Failed to load data. Exiting..."])%list,
     5%nat).
Proof. vm_compute. reflexivity. Qed.

(** The second chart cannot be written: the third builder is not entered
    and [main] returns. *)
Lemma chart_failure_witness :
  @raises_failures_only host_disk_full /\
  result_of (@main counter_generator host_disk_full 5%nat) = Ret tt /\
  In (Enter ModelPerformance)
     (events_of (@main counter_generator host_disk_full 5%nat)) /\
  ~ In (Enter CustomerSegmentation)
       (events_of (@main counter_generator host_disk_full 5%nat)) /\
  last (events_of (@main counter_generator host_disk_full 5%nat)) (Print "") =
    Print "❌ Error generating visualizations: [Errno 28] No space left on device".
Proof.
  assert (Hhost : @raises_failures_only host_disk_full).
  { apply test_host_failures; intros e Heq; inversion Heq; reflexivity. }
  split; [exact Hhost|].
  split.
  - exact (proj1 (@chart_failure_skips_rest_main_returns counter_generator
                    host_disk_full 5%nat Hhost)).
  - refine (proj1 (proj2 (@chart_failure_skips_rest_main_returns
                            counter_generator host_disk_full 5%nat Hhost))
              sample_output (Some archetype_names) disk_full _ _ _);
      [vm_compute; reflexivity | reflexivity | reflexivity].
Defined.

Lemma five_columns_witness :
  exists df,
    @read_csv sample_host "../datasets/gym_churn_us.csv" = inr df /\
    nrows sample_output = nrows df /\
    List.length derived_columns = 5%nat /\
    (forall name, ~ In name derived_columns ->
       lookup_col name (columns sample_output) = lookup_col name (columns df)) /\
    (forall name, In name derived_columns ->
       lookup_col name (columns sample_output) <> None) /\
    ((forall name, In name derived_columns ->
        lookup_col name (columns df) = None) ->
     exists c1 c2 c3 c4 c5,
       columns sample_output =
         (columns df ++
          [("customer_value_tier", c1); ("activity_level", c2);
           ("tenure_category", c3); ("Cluster", c4); ("Archetype", c5)])%list).
Proof.
  refine (@five_columns_assigned_others_kept counter_generator sample_host
            0%nat sample_output (Some archetype_names) (events_of sample_run)
            (snd sample_run) _).
  vm_compute; reflexivity.
Defined.

(** C8 as stated fails. On the sample table the result has five columns
    more than the loaded table, not four; and on a table that already has a
    column called [Cluster], that column of the loaded table is replaced. *)
Lemma deriver_adds_five_columns_not_four :
  List.length (columns sample_output) =
    (List.length (columns sample_table) + 5)%nat /\
  List.length (columns sample_output) <>
    (List.length (columns sample_table) + 4)%nat /\
  lookup_col "Cluster" (columns table_with_cluster) =
    Some (ObjCol (repeat (Some "north") 6)) /\
  lookup_col "Cluster" (columns cluster_output) =
    Some (IntCol [4; 1; 3; 0; 2; 3]%Z) /\
  lookup_col "Cluster" (columns cluster_output) <>
    lookup_col "Cluster" (columns table_with_cluster).
Proof.
  split; [vm_compute; reflexivity|].
  split; [vm_compute; discriminate|].
  split; [vm_compute; reflexivity|].
  split; [vm_compute; reflexivity|].
  vm_compute. discriminate.
Qed.

Lemma weights_sum_witness :
  rng_uniform counter_generator /\
  forall st n, exists ids,
    fst (fst (@choice counter_generator (keys cluster_probabilities) n
                (values cluster_probabilities) st)) = Ret ids /\
    List.length ids = n.
Proof.
  split; [exact counter_generator_uniform|].
  exact (proj2 (proj2 (proj2 (proj2 (@weights_sum_to_one counter_generator))))
           counter_generator_uniform).
Defined.

(** * Further properties of the feature deriver *)

(** ** Binning: range, order and rows *)

Lemma cut_band_none_iff (b : band) (q : Q) :
  cut_value (band_bins b) (band_labels b) (Fin q) = None <->
  (q <= band_lower b \/ band_upper b < q)%Q.
Proof.
  split; [|apply cut_band_outside].
  destruct b; cbn; rewrite cut_value_five; q_cases; intros Heq;
    try discriminate; first [left; lra | right; lra].
Qed.

Lemma cut_band_monotone (b : band) (q1 q2 : Q) (k1 k2 : nat) :
  (k1 < 4)%nat -> (k2 < 4)%nat -> (q1 <= q2)%Q ->
  cut_value (band_bins b) (band_labels b) (Fin q1) = nth_error (band_labels b) k1 ->
  cut_value (band_bins b) (band_labels b) (Fin q2) = nth_error (band_labels b) k2 ->
  (k1 <= k2)%nat.
Proof.
  intros Hk1 Hk2 Hq H1 H2.
  apply cut_band_interval in H1; [|assumption].
  apply cut_band_interval in H2; [|assumption].
  destruct H1 as [Hlo1 _], H2 as [_ Hhi2].
  destruct k1 as [|[|[|[|k1]]]]; [| | | |lia];
    destruct k2 as [|[|[|[|k2]]]]; try lia;
    destruct b; cbn [band_bins nth] in *; exfalso; lra.
Qed.

Section BandsMore.
Context {G : Generator} {H : Host}.

(** X1. In every table the feature deriver returns, the band of a row is missing
    exactly when the row's value is NaN, infinite, at most the lower end 0
    (0 itself included) or above the upper end of the range. *)
Theorem band_missing_exactly_out_of_range st df' names out st' :
  load_and_prepare_data st = (Ret (Some df', names), out, st') ->
  forall b i v,
    cell_num df' (band_source b) i = Some v ->
    cell_label df' (band_column b) i = Some None <->
    match v with
    | Fin q => (q <= band_lower b \/ band_upper b < q)%Q
    | _ => True
    end.
Proof.
  intros Hrun b i v Hcell.
  destruct (prepared_derived _ _ _ _ _ Hrun) as (df & clusters & _ & Hd & _).
  rewrite (band_rowwise _ _ _ Hd b i _ Hcell).
  destruct v as [| | |q];
    try (split; [exact (fun _ => I) | intros _; f_equal;
                 apply cut_value_not_finite; discriminate]).
  split.
  - intros Heq. apply cut_band_none_iff. congruence.
  - intros Hq. f_equal. apply cut_band_none_iff. assumption.
Qed.

(** X2. Binning keeps the order of the values: of two rows with a band, the one
    with the smaller value is in the same or an earlier bin. *)
Theorem band_order_follows_value st df' names out st' :
  load_and_prepare_data st = (Ret (Some df', names), out, st') ->
  forall b i j qi qj ki kj,
    (ki < 4)%nat -> (kj < 4)%nat ->
    cell_num df' (band_source b) i = Some (Fin qi) ->
    cell_num df' (band_source b) j = Some (Fin qj) ->
    cell_label df' (band_column b) i = Some (nth_error (band_labels b) ki) ->
    cell_label df' (band_column b) j = Some (nth_error (band_labels b) kj) ->
    (qi <= qj)%Q ->
    (ki <= kj)%nat.
Proof.
  intros Hrun b i j qi qj ki kj Hki Hkj Hi Hj Hli Hlj Hq.
  destruct (prepared_derived _ _ _ _ _ Hrun) as (df & clusters & _ & Hd & _).
  rewrite (band_rowwise _ _ _ Hd b i _ Hi) in Hli.
  rewrite (band_rowwise _ _ _ Hd b j _ Hj) in Hlj.
  inversion Hli. inversion Hlj.
  eapply cut_band_monotone; eassumption.
Qed.

(** X3. Binning neither drops nor reorders rows: a band column has one entry for
    every row of its source column, and entry [i] is the binning of the
    source value in row [i]. *)
Theorem band_column_row_for_row st df' names out st' :
  load_and_prepare_data st = (Ret (Some df', names), out, st') ->
  forall b, exists xs ys,
    numeric_col df' (band_source b) xs /\
    lookup_col (band_column b) (columns df') = Some (CatCol (band_labels b) ys) /\
    List.length ys = List.length xs /\
    forall i, nth_error ys i =
              option_map (cut_value (band_bins b) (band_labels b))
                         (nth_error xs i).
Proof.
  intros Hrun b.
  destruct (prepared_derived _ _ _ _ _ Hrun) as (df & clusters & _ & Hd & _).
  destruct Hd as (_ & Hkeep & Hband & _).
  destruct (Hband b) as (xs & (c & Hsrc & Hnum) & Hcol).
  exists xs. eexists. split; [|split; [exact Hcol|split]].
  - exists c. split; [|assumption].
    rewrite Hkeep; [assumption|].
    destruct b; simpl; intuition discriminate.
  - apply length_map.
  - intros i. apply nth_error_map.
Qed.

End BandsMore.

(** Row 3 of the sample spends exactly 0 and has no tier. *)
Lemma band_missing_witness :
  cell_num sample_output (band_source ValueTier) 3 = Some (Fin 0) /\
  cell_label sample_output (band_column ValueTier) 3 = Some None.
Proof.
  split; [vm_compute; reflexivity|].
  refine (proj2 (@band_missing_exactly_out_of_range
                   counter_generator sample_host 0%nat sample_output
                   (Some archetype_names) (events_of sample_run)
                   (snd sample_run) _ ValueTier 3%nat (Fin 0) _) _).
  - vm_compute; reflexivity.
  - vm_compute; reflexivity.
  - left. vm_compute. discriminate.
Defined.

(** Rows 0 and 1 of the sample: lifetime 3 is "New", lifetime 7 is
    "Established". *)
Lemma band_order_witness :
  cell_num sample_output (band_source TenureCategory) 0 = Some (Fin 3) /\
  cell_num sample_output (band_source TenureCategory) 1 = Some (Fin 7) /\
  cell_label sample_output (band_column TenureCategory) 0 =
    Some (Some "New (0-3m)") /\
  cell_label sample_output (band_column TenureCategory) 1 =
    Some (Some "Established (6-12m)") /\
  (0 <= 2)%nat.
Proof.
  repeat (split; [vm_compute; reflexivity|]).
  refine (@band_order_follows_value
            counter_generator sample_host 0%nat sample_output
            (Some archetype_names) (events_of sample_run) (snd sample_run)
            _ TenureCategory 0%nat 1%nat 3%Q 7%Q 0%nat 2%nat _ _ _ _ _ _ _);
    try (vm_compute; reflexivity); try lia.
  vm_compute. discriminate.
Defined.

Lemma band_rows_witness :
  exists xs ys,
    numeric_col sample_output (band_source TenureCategory) xs /\
    lookup_col (band_column TenureCategory) (columns sample_output) =
      Some (CatCol (band_labels TenureCategory) ys) /\
    List.length ys = List.length xs /\
    forall i, nth_error ys i =
              option_map (cut_value (band_bins TenureCategory)
                            (band_labels TenureCategory))
                         (nth_error xs i).
Proof.
  refine (@band_column_row_for_row counter_generator sample_host 0%nat
            sample_output (Some archetype_names) (events_of sample_run)
            (snd sample_run) _ TenureCategory).
  vm_compute; reflexivity.
Defined.

(** ** The loader: when it succeeds, what it prints, what it leaves behind *)

Lemma pd_cut_numeric (x : column) (xs : list num) (b : band) :
  to_numeric x = Some xs ->
  pd_cut x (band_bins b) (band_labels b) =
    inr (CatCol (band_labels b)
           (map (cut_value (band_bins b) (band_labels b)) xs)).
Proof.
  intros Hx. unfold pd_cut. rewrite Hx. destruct b; reflexivity.
Qed.

Section LoaderMore.
Context {G : Generator} {H : Host}.

(** The [try] block run forward: with the file read, the three source
    columns numeric and the draw inside the population, it returns. *)
Lemma load_body_runs st df x1 x2 x3 clusters :
  read_csv "../datasets/gym_churn_us.csv" = inr df ->
  numeric_col df (band_source ValueTier) x1 ->
  numeric_col df (band_source ActivityLevel) x2 ->
  numeric_col df (band_source TenureCategory) x3 ->
  take_all (keys cluster_probabilities)
    (map (draw_index cluster_cdf)
       (fst (mt_random_sample (mt_seed 42) (nrows df)))) = Some clusters ->
  exists df',
    load_body st =
      (Ret (df', archetype_names),
       [Print (loaded_line df);
        Print "✅ Data preparation completed successfully!"],
       snd (mt_random_sample (mt_seed 42) (nrows df))).
Proof.
  intros Hcsv (c1 & Hl1 & Hn1) (c2 & Hl2 & Hn2) (c3 & Hl3 & Hn3) Htake.
  cbn [band_source] in *.
  eexists. unfold load_body.
  change [0; 100; 200; 300; 600]%Q with (band_bins ValueTier).
  change [0; 1; 2; 3; 10]%Q with (band_bins ActivityLevel).
  change [0; 3; 6; 12; 50]%Q with (band_bins TenureCategory).
  change ["Basic"; "Standard"; "Premium"; "VIP"]
    with (band_labels ValueTier).
  change ["Low"; "Moderate"; "High"; "Super Active"]
    with (band_labels ActivityLevel).
  change ["New (0-3m)"; "Developing (3-6m)"; "Established (6-12m)";
          "Veteran (12m+)"] with (band_labels TenureCategory).
  unfold bind at 1. rewrite Hcsv. cbn [lift ret].
  unfold bind at 1. cbn [print].
  unfold bind at 1. unfold getitem at 1. rewrite Hl1. cbn [lift ret].
  unfold bind at 1.
  rewrite (pd_cut_numeric c1 x1 ValueTier Hn1). cbn [lift ret].
  unfold bind at 1. unfold getitem at 1. cbn [columns setitem].
  rewrite lookup_set_col_other by names_differ. rewrite Hl2. cbn [lift ret].
  unfold bind at 1.
  rewrite (pd_cut_numeric c2 x2 ActivityLevel Hn2). cbn [lift ret].
  unfold bind at 1. unfold getitem at 1. cbn [columns setitem].
  rewrite !lookup_set_col_other by names_differ. rewrite Hl3. cbn [lift ret].
  unfold bind at 1.
  rewrite (pd_cut_numeric c3 x3 TenureCategory Hn3). cbn [lift ret].
  unfold bind at 1. cbn [np_random_seed].
  unfold bind at 1. rewrite choice_clusters. cbn [nrows setitem].
  rewrite Htake.
  unfold bind at 1. unfold getitem at 1. cbn [columns setitem].
  rewrite lookup_set_col_same. cbn [lift ret].
  unfold bind at 1. cbn [print ret app].
  reflexivity.
Qed.

(** The [try] block stops at the first source column that is absent. *)
Lemma load_body_absent_column st df b :
  read_csv "../datasets/gym_churn_us.csv" = inr df ->
  (forall b', (band_rank b' < band_rank b)%nat ->
              exists xs, numeric_col df (band_source b') xs) ->
  lookup_col (band_source b) (columns df) = None ->
  load_body st =
    (Raise (key_error (band_source b)), [Print (loaded_line df)], st).
Proof.
  intros Hcsv Hbefore Habs. unfold load_body.
  change [0; 100; 200; 300; 600]%Q with (band_bins ValueTier).
  change [0; 1; 2; 3; 10]%Q with (band_bins ActivityLevel).
  change ["Basic"; "Standard"; "Premium"; "VIP"]
    with (band_labels ValueTier).
  change ["Low"; "Moderate"; "High"; "Super Active"]
    with (band_labels ActivityLevel).
  unfold bind at 1. rewrite Hcsv. cbn [lift ret].
  unfold bind at 1. cbn [print].
  destruct b; cbn [band_source band_rank] in *.
  - unfold bind at 1. unfold getitem at 1. rewrite Habs. reflexivity.
  - destruct (Hbefore ValueTier) as (x1 & c1 & Hl1 & Hn1); [simpl; lia|].
    cbn [band_source] in Hl1.
    unfold bind at 1. unfold getitem at 1. rewrite Hl1. cbn [lift ret].
    unfold bind at 1.
    rewrite (pd_cut_numeric c1 x1 ValueTier Hn1). cbn [lift ret].
    unfold bind at 1. unfold getitem at 1. cbn [columns setitem].
    rewrite lookup_set_col_other by names_differ. rewrite Habs. reflexivity.
  - destruct (Hbefore ValueTier) as (x1 & c1 & Hl1 & Hn1); [simpl; lia|].
    destruct (Hbefore ActivityLevel) as (x2 & c2 & Hl2 & Hn2); [simpl; lia|].
    cbn [band_source] in Hl1, Hl2.
    unfold bind at 1. unfold getitem at 1. rewrite Hl1. cbn [lift ret].
    unfold bind at 1.
    rewrite (pd_cut_numeric c1 x1 ValueTier Hn1). cbn [lift ret].
    unfold bind at 1. unfold getitem at 1. cbn [columns setitem].
    rewrite lookup_set_col_other by names_differ. rewrite Hl2. cbn [lift ret].
    unfold bind at 1.
    rewrite (pd_cut_numeric c2 x2 ActivityLevel Hn2). cbn [lift ret].
    unfold bind at 1. unfold getitem at 1. cbn [columns setitem].
    rewrite !lookup_set_col_other by names_differ. rewrite Habs. reflexivity.
Qed.

(** X4. With samples in [[0, 1)], a file that reads and three numeric source
    columns are all the loader needs: it returns a table derived from the
    loaded one, with one cluster id per row, together with the five
    archetype names, and has printed its three lines. *)
Theorem loader_succeeds_on_numeric_columns st df :
  rng_uniform G ->
  read_csv "../datasets/gym_churn_us.csv" = inr df ->
  (forall b, exists xs, numeric_col df (band_source b) xs) ->
  exists df' clusters,
    load_and_prepare_data st =
      (Ret (Some df', Some archetype_names),
       [Print "📊 Loading and preparing data for visualization...";
        Print (loaded_line df);
        Print "✅ Data preparation completed successfully!"],
       snd (mt_random_sample (mt_seed 42) (nrows df))) /\
    derived_from df df' clusters /\
    List.length clusters = nrows df.
Proof.
  intros Hu Hcsv Hnum.
  destruct (Hnum ValueTier) as (x1 & H1).
  destruct (Hnum ActivityLevel) as (x2 & H2).
  destruct (Hnum TenureCategory) as (x3 & H3).
  destruct (clusters_drawn (mt_seed 42) (nrows df) Hu) as (cl & Htake & Hlen).
  destruct (load_body_runs st df x1 x2 x3 cl Hcsv H1 H2 H3 Htake)
    as (df' & Hbody).
  assert (Hload : load_and_prepare_data st =
      (Ret (Some df', Some archetype_names),
       [Print "📊 Loading and preparing data for visualization...";
        Print (loaded_line df);
        Print "✅ Data preparation completed successfully!"],
       snd (mt_random_sample (mt_seed 42) (nrows df)))).
  { unfold load_and_prepare_data, bind, try_except, print, ret.
    rewrite Hbody. reflexivity. }
  exists df'.
  destruct (prepared_derived _ _ _ _ _ Hload)
    as (df0 & cl0 & Hcsv0 & Hd & Htake0 & _).
  rewrite Hcsv in Hcsv0. inversion Hcsv0; subst df0.
  rewrite Htake in Htake0. inversion Htake0; subst cl0.
  exists cl. auto.
Qed.

(** X5. A successful run leaves [np.random] in the state that seed 42 reaches
    after one sample per row, whatever the state was before, and has
    printed exactly three lines, the second with the row and column counts
    of the loaded table. *)
Theorem loader_reseeds_generator st df' names out st' :
  load_and_prepare_data st = (Ret (Some df', names), out, st') ->
  exists df,
    read_csv "../datasets/gym_churn_us.csv" = inr df /\
    st' = snd (mt_random_sample (mt_seed 42) (nrows df)) /\
    out = [Print "📊 Loading and preparing data for visualization...";
           Print (loaded_line df);
           Print "✅ Data preparation completed successfully!"] /\
    names = Some archetype_names.
Proof.
  intros Hrun.
  destruct (prepared_derived _ _ _ _ _ Hrun)
    as (df & cl & Hcsv & Hd & Htake & Hnames).
  destruct Hd as (_ & _ & Hband & _).
  destruct (Hband ValueTier) as (x1 & H1 & _).
  destruct (Hband ActivityLevel) as (x2 & H2 & _).
  destruct (Hband TenureCategory) as (x3 & H3 & _).
  destruct (load_body_runs st df x1 x2 x3 cl Hcsv H1 H2 H3 Htake)
    as (df0 & Hbody).
  exists df. split; [assumption|].
  unfold load_and_prepare_data, bind, try_except, print, ret in Hrun.
  rewrite Hbody in Hrun. cbn in Hrun. inversion Hrun. auto.
Qed.

(** X6. When the file reads but a source column is absent, the error line names
    the first absent column in the order spend, attendance, lifetime (given
    that the columns before it are numeric); the loader returns the pair of
    [None] and has not touched [np.random]. *)
Theorem loader_names_first_absent_column st df b :
  read_csv "../datasets/gym_churn_us.csv" = inr df ->
  (forall b', (band_rank b' < band_rank b)%nat ->
              exists xs, numeric_col df (band_source b') xs) ->
  lookup_col (band_source b) (columns df) = None ->
  load_and_prepare_data st =
    (Ret (None, None),
     [Print "📊 Loading and preparing data for visualization...";
      Print (loaded_line df);
      Print ("❌ Error loading data: '" ++ band_source b ++ "'")],
     st).
Proof.
  intros Hcsv Hbefore Habs.
  rewrite (load_caught _ _ _ _
             (load_body_absent_column st df b Hcsv Hbefore Habs) eq_refl).
  reflexivity.
Qed.

End LoaderMore.

(** ** [main]: the full run, a late failure, and what is not caught *)

Ltac unfold_charts :=
  unfold chart_phase, try_except, create_executive_dashboard,
    create_model_performance_chart, create_customer_segmentation_chart,
    bind, enter, print, external, raise, ret.

Section MainMore.
Context {G : Generator} {H : Host}.

(** X8. When the loader returns a table and no builder raises, [main] enters
    the three builders once each, in the order dashboard, model
    performance, segmentation, each after the one before has reported its
    file saved, then prints the summary and returns; the generator is left
    as the loader left it. *)
Theorem main_runs_builders_in_order st df names out st' :
  load_and_prepare_data st = (Ret (Some df, names), out, st') ->
  plot_executive_dashboard df = None ->
  plot_model_performance df = None ->
  plot_customer_segmentation df names = None ->
  main st = (Ret tt, (banner ++ out ++ full_run_events)%list, st').
Proof.
  intros Hload H1 H2 H3.
  rewrite (main_after_load _ _ _ _ Hload). cbn [fst snd].
  unfold_charts. rewrite H1, H2, H3. reflexivity.
Qed.

(** X9. When only the third builder fails, the first two have run to the end
    (both report their file saved), the last line reports the failure, the
    summary is not printed, and [main] returns. *)
Theorem third_builder_failure_keeps_first_two st df names out st' e :
  load_and_prepare_data st = (Ret (Some df, names), out, st') ->
  plot_executive_dashboard df = None ->
  plot_model_performance df = None ->
  plot_customer_segmentation df names = Some e ->
  is_Exception (exc_cls e) = true ->
  main st =
    (Ret tt,
     (banner ++ out ++
      firstn 8 full_run_events ++
      [Print ("❌ Error generating visualizations: " ++ exc_str e)])%list,
     st').
Proof.
  intros Hload H1 H2 H3 He.
  rewrite (main_after_load _ _ _ _ Hload). cbn [fst snd].
  unfold_charts. rewrite H1, H2, H3, He. reflexivity.
Qed.

(** X10. An exception that is no instance of [Exception] (a keyboard interrupt,
    an exit request) raised while the file is read is caught by neither
    handler: [main] raises it, having printed only the banner and the
    loading line. *)
Theorem interrupt_while_loading_propagates st e :
  read_csv "../datasets/gym_churn_us.csv" = inl e ->
  is_Exception (exc_cls e) = false ->
  main st =
    (Raise e,
     (banner ++
      [Print "📊 Loading and preparing data for visualization..."])%list,
     st).
Proof.
  intros Hcsv He.
  unfold main, load_and_prepare_data, load_body, try_except, bind, print, lift.
  rewrite Hcsv. cbn [raise]. rewrite He. reflexivity.
Qed.

(** X11. The same in the chart phase: when the first builder to raise raises an
    exception that is no instance of [Exception], [main] raises it; what was
    printed stops where that builder stopped, with no error line after. *)
Theorem interrupt_in_builder_propagates st df names out st' e :
  load_and_prepare_data st = (Ret (Some df, names), out, st') ->
  plot_executive_dashboard df = Some e \/
  (plot_executive_dashboard df = None /\
   plot_model_performance df = Some e) \/
  (plot_executive_dashboard df = None /\
   plot_model_performance df = None /\
   plot_customer_segmentation df names = Some e) ->
  is_Exception (exc_cls e) = false ->
  exists n,
    (n = 2 \/ n = 5 \/ n = 8)%nat /\
    main st =
      (Raise e, (banner ++ out ++ firstn n full_run_events)%list, st').
Proof.
  intros Hload Hplot He.
  rewrite (main_after_load _ _ _ _ Hload). cbn [fst snd].
  destruct Hplot as [H1|[[H1 H2]|[H1 [H2 H3]]]];
    [exists 2%nat | exists 5%nat | exists 8%nat];
    (split; [tauto|]); unfold_charts;
    rewrite ?H1, ?H2, ?H3, He; reflexivity.
Qed.

End MainMore.

(** ** The segmentation chart: sizes, colours, labels and scatter groups *)

Lemma insert_key_In (a k : Z) (l : list Z) :
  In k (insert_key a l) <-> k = a \/ In k l.
Proof.
  induction l as [|x rest IH]; simpl; [intuition|].
  destruct (a <? x)%Z; [simpl; intuition|].
  destruct (a =? x)%Z eqn:Hax.
  - apply Z.eqb_eq in Hax. subst. simpl. intuition.
  - simpl. rewrite IH. intuition.
Qed.

Lemma insert_key_sorted (a : Z) (l : list Z) :
  StronglySorted Z.lt l -> StronglySorted Z.lt (insert_key a l).
Proof.
  induction 1 as [|x rest Hs IH Hall]; simpl.
  - repeat constructor.
  - destruct (a <? x)%Z eqn:Hlt.
    + apply Z.ltb_lt in Hlt. constructor.
      * constructor; assumption.
      * constructor; [assumption|].
        eapply Forall_impl; [|exact Hall]. intros y Hy. simpl in Hy. lia.
    + apply Z.ltb_ge in Hlt.
      destruct (a =? x)%Z eqn:Hax; [constructor; assumption|].
      apply Z.eqb_neq in Hax.
      constructor; [assumption|].
      apply Forall_forall. intros y Hy. apply insert_key_In in Hy.
      destruct Hy as [->|Hy]; [lia|].
      rewrite Forall_forall in Hall. auto.
Qed.

Lemma sorted_keys_In (xs : list Z) (k : Z) :
  In k (sorted_keys xs) <-> In k xs.
Proof.
  unfold sorted_keys. induction xs as [|x rest IH]; simpl; [tauto|].
  rewrite insert_key_In, IH. intuition.
Qed.

Lemma sorted_keys_sorted (xs : list Z) : StronglySorted Z.lt (sorted_keys xs).
Proof.
  unfold sorted_keys. induction xs as [|x rest IH]; simpl;
    [constructor | apply insert_key_sorted; assumption].
Qed.

Lemma strictly_sorted_nodup (l : list Z) : StronglySorted Z.lt l -> NoDup l.
Proof.
  induction 1 as [|x rest Hs IH Hall]; constructor; [|assumption].
  intros Hin. rewrite Forall_forall in Hall. specialize (Hall x Hin). lia.
Qed.

Lemma count_of_cons (x k : Z) (rest : list Z) :
  count_of (x :: rest) k =
  ((if (k =? x)%Z then 1 else 0) + count_of rest k)%nat.
Proof. unfold count_of. simpl. destruct (k =? x)%Z; reflexivity. Qed.

Lemma count_of_pos (xs : list Z) (k : Z) :
  (0 < count_of xs k)%nat <-> In k xs.
Proof.
  induction xs as [|x rest IH]; [simpl; unfold count_of; simpl; split; [lia|tauto]|].
  rewrite count_of_cons. simpl.
  destruct (k =? x)%Z eqn:Hk.
  - apply Z.eqb_eq in Hk. subst. split; [auto | lia].
  - apply Z.eqb_neq in Hk. simpl. rewrite IH. intuition congruence.
Qed.

Lemma list_sum_cons (a : nat) (l : list nat) :
  list_sum (a :: l) = (a + list_sum l)%nat.
Proof. reflexivity. Qed.

Lemma indicator_sum (x : Z) (ks : list Z) :
  NoDup ks ->
  list_sum (map (fun k => if (k =? x)%Z then 1 else 0)%nat ks) =
  if in_dec Z.eq_dec x ks then 1%nat else 0%nat.
Proof.
  induction 1 as [|k rest Hnotin Hnd IH]; [reflexivity|].
  rewrite map_cons, list_sum_cons, IH.
  destruct (k =? x)%Z eqn:Hk.
  - apply Z.eqb_eq in Hk. subst k.
    destruct (in_dec Z.eq_dec x rest); [contradiction|].
    destruct (in_dec Z.eq_dec x (x :: rest)) as [_|Hn];
      [reflexivity | exfalso; apply Hn; left; reflexivity].
  - apply Z.eqb_neq in Hk.
    destruct (in_dec Z.eq_dec x rest) as [Hi|Hi];
      destruct (in_dec Z.eq_dec x (k :: rest)) as [Hj|Hj]; try reflexivity.
    + exfalso. apply Hj. right. assumption.
    + exfalso. destruct Hj; [congruence | contradiction].
Qed.

(** Counting over a list of distinct keys counts the rows whose value is one
    of the keys. *)
Lemma count_sum (ks xs : list Z) :
  NoDup ks ->
  list_sum (map (count_of xs) ks) =
  List.length (filter (fun x => if in_dec Z.eq_dec x ks then true else false) xs).
Proof.
  intros Hnd. induction xs as [|x rest IH]; cbn [filter].
  - clear Hnd. induction ks as [|k ks IHk]; [reflexivity|].
    rewrite map_cons, list_sum_cons, IHk. reflexivity.
  - assert (Hsplit : list_sum (map (count_of (x :: rest)) ks) =
                     (list_sum (map (fun k => if (k =? x)%Z then 1 else 0)%nat ks)
                      + list_sum (map (count_of rest) ks))%nat).
    { clear. induction ks as [|k ks IH]; [reflexivity|].
      rewrite !map_cons, !list_sum_cons, IH, count_of_cons. lia. }
    rewrite Hsplit, IH, (indicator_sum x ks Hnd).
    destruct (in_dec Z.eq_dec x ks); reflexivity.
Qed.

Lemma segment_sizes_total (clusters : list Z) :
  list_sum (map snd (segment_sizes clusters)) = List.length clusters.
Proof.
  unfold segment_sizes. rewrite map_map. cbn [snd].
  rewrite (count_sum _ _ (strictly_sorted_nodup _ (sorted_keys_sorted _))).
  rewrite <- (filter_ext_in (fun _ => true)).
  - induction clusters; simpl; auto.
  - intros x Hx. apply (proj2 (sorted_keys_In _ _)) in Hx.
    destruct (in_dec Z.eq_dec x (sorted_keys clusters));
      [reflexivity|contradiction].
Qed.

Lemma scatter_total (clusters : list Z) :
  list_sum (scatter_group_sizes clusters) =
  List.length (filter in_range clusters).
Proof.
  unfold scatter_group_sizes. rewrite count_sum.
  - f_equal. apply filter_ext. intros x. unfold in_range.
    destruct (in_dec Z.eq_dec x [0; 1; 2; 3; 4]%Z) as [Hi|Hi]; simpl in Hi.
    + symmetry. apply andb_true_iff. rewrite Z.leb_le, Z.leb_le. lia.
    + symmetry. apply andb_false_iff. rewrite Z.leb_gt, Z.leb_gt. lia.
  - repeat constructor; simpl; intuition discriminate.
Qed.

(** X13. The sizes on the bars of panel 1 add up to the number of rows; the
    segments are the ids that occur, each once, in increasing order, and
    the size of each is the number of rows with that id, at least 1. *)
Theorem segment_sizes_add_up (clusters : list Z) :
  list_sum (map snd (segment_sizes clusters)) = List.length clusters /\
  StronglySorted Z.lt (keys (segment_sizes clusters)) /\
  (forall k, In k (keys (segment_sizes clusters)) <-> In k clusters) /\
  (forall k n, In (k, n) (segment_sizes clusters) ->
               n = count_of clusters k /\ (1 <= n)%nat).
Proof.
  split; [apply segment_sizes_total|].
  unfold segment_sizes, keys. rewrite !map_map. cbn [fst snd].
  rewrite map_id.
  split; [apply sorted_keys_sorted|split; [apply sorted_keys_In|]].
  - intros k n Hin. apply in_map_iff in Hin.
    destruct Hin as (k' & Heq & Hk'). inversion Heq; subst.
    split; [reflexivity|].
    apply (proj1 (sorted_keys_In _ _)) in Hk'.
    apply (proj2 (count_of_pos _ _)) in Hk'. lia.
Qed.

Lemma getitems_ok {V} (d : dict V) (ks : list Z) :
  (exists vs, getitems d ks = inr vs) <->
  Forall (fun k => dict_get d k <> None) ks.
Proof.
  induction ks as [|k rest IH]; cbn [getitems].
  - split; [constructor | eexists; reflexivity].
  - rewrite Forall_cons_iff, <- IH.
    destruct (dict_get d k) as [v|] eqn:Hk.
    + destruct (getitems d rest) as [e|vs].
      * split; [intros [vs Hvs]; discriminate|].
        intros [_ [vs Hvs]]. discriminate.
      * split; intros _; [split; [discriminate|]|]; eexists; reflexivity.
    + split; [intros [vs Hvs]; discriminate|].
      intros [Hn _]. congruence.
Qed.

Lemma getitems_length {V} (d : dict V) (ks : list Z) (vs : list V) :
  getitems d ks = inr vs -> List.length vs = List.length ks.
Proof.
  revert vs. induction ks as [|k rest IH]; simpl; intros vs Hvs.
  - inversion Hvs. reflexivity.
  - destruct (dict_get d k); [|discriminate].
    destruct (getitems d rest) as [e|ws]; [discriminate|].
    inversion Hvs; subst. simpl. f_equal. auto.
Qed.

Lemma archetype_colors_defined (k : Z) :
  dict_get archetype_colors k <> None <-> in_range k = true.
Proof.
  unfold in_range. rewrite andb_true_iff, Z.leb_le, Z.leb_le.
  split.
  - intros Hk. destruct (dict_get archetype_colors k) as [c|] eqn:Hc;
      [|congruence].
    apply dict_get_in in Hc. simpl in Hc.
    destruct Hc as [Hc|[Hc|[Hc|[Hc|[Hc|[]]]]]]; inversion Hc; lia.
  - intros Hk.
    assert (k = 0 \/ k = 1 \/ k = 2 \/ k = 3 \/ k = 4)%Z as Hcases by lia.
    destruct Hcases as [ -> | [ -> | [ -> | [ -> | -> ]]]]; discriminate.
Qed.

Lemma tick_label_of_id (k : Z) :
  in_range k = true ->
  exists s w,
    dict_get archetype_names k = Some s /\ second_word s = inr w /\
    In w ["Social"; "Active"; "Premium"; "Flight"; "Decision"].
Proof.
  unfold in_range. rewrite andb_true_iff, Z.leb_le, Z.leb_le. intros Hk.
  assert (k = 0 \/ k = 1 \/ k = 2 \/ k = 3 \/ k = 4)%Z as Hcases by lia.
  destruct Hcases as [ -> | [ -> | [ -> | [ -> | -> ]]]];
    do 2 eexists; (split; [reflexivity|]);
    (split; [vm_compute; reflexivity | simpl; tauto]).
Qed.

Lemma tick_labels_in_range (ks : list Z) :
  Forall (fun k => in_range k = true) ks ->
  exists ws, tick_labels archetype_names ks = inr ws /\
             List.length ws = List.length ks /\
             Forall (fun w => In w ["Social"; "Active"; "Premium"; "Flight";
                                    "Decision"]) ws.
Proof.
  induction 1 as [|k rest Hk _ (ws & Hws & Hlen & Hall)].
  - exists []. repeat split; constructor.
  - destruct (tick_label_of_id k Hk) as (s & w & Hs & Hw & Hin).
    exists (w :: ws). cbn [tick_labels]. rewrite Hs, Hw, Hws.
    repeat split; [simpl; congruence | constructor; assumption].
Qed.

(** X14. The colour and label lookups of the segmentation chart go through
    exactly when every cluster id is in 0..4, as the loader guarantees: then
    there is one colour and one label (the second word of the archetype
    name) per segment; an id outside 0..4 makes the colour lookup raise a
    [KeyError]. *)
Theorem segment_lookups_need_ids_in_range (clusters : list Z) :
  ((exists cs, segment_colors clusters = inr cs) <->
   Forall (fun k => in_range k = true) clusters) /\
  (Forall (fun k => in_range k = true) clusters ->
   exists cs ws,
     segment_colors clusters = inr cs /\
     tick_labels archetype_names (keys (segment_sizes clusters)) = inr ws /\
     List.length cs = List.length (segment_sizes clusters) /\
     List.length ws = List.length (segment_sizes clusters) /\
     Forall (fun w => In w ["Social"; "Active"; "Premium"; "Flight";
                            "Decision"]) ws) /\
  (forall e, segment_colors clusters = inl e -> exc_cls e = KeyError).
Proof.
  assert (Hkeys : Forall (fun k => in_range k = true) clusters <->
                  Forall (fun k => in_range k = true)
                         (keys (segment_sizes clusters))).
  { assert (Hin : forall k, In k (keys (segment_sizes clusters)) <->
                               In k clusters).
    { intros k. unfold segment_sizes, keys. rewrite map_map. cbn [fst].
      rewrite map_id. apply sorted_keys_In. }
    rewrite !Forall_forall. split; intros Hall k Hk; apply Hall;
      apply Hin; assumption. }
  assert (Hiff : (exists cs, segment_colors clusters = inr cs) <->
                 Forall (fun k => in_range k = true) clusters).
  { unfold segment_colors. rewrite getitems_ok, Hkeys.
    rewrite !Forall_forall. split; intros Hall k Hk;
      apply archetype_colors_defined; auto. }
  split; [exact Hiff|split].
  - intros Hall. destruct (proj2 Hiff Hall) as [cs Hcs].
    destruct (tick_labels_in_range _ (proj1 Hkeys Hall)) as (ws & Hws & Hl & Hw).
    exists cs, ws. repeat split; try assumption.
    + unfold segment_colors in Hcs. apply getitems_length in Hcs.
      rewrite Hcs. unfold keys. apply length_map.
    + rewrite Hl. unfold keys. apply length_map.
  - unfold segment_colors. generalize (keys (segment_sizes clusters)).
    induction l as [|k rest IH]; cbn [getitems]; intros e He; [discriminate|].
    destruct (dict_get archetype_colors k); [|inversion He; reflexivity].
    destruct (getitems archetype_colors rest) as [e'|vs];
      [inversion He; subst; auto | discriminate].
Qed.

(** X15. Panel 4 draws one scatter per id in [range(5)]: together the five
    groups hold exactly the rows whose id is in 0..4, so with the ids the
    loader produces every customer is drawn once, and a row with any other
    id is drawn in none of them. *)
Theorem scatter_groups_hold_rows_in_range (clusters : list Z) :
  list_sum (scatter_group_sizes clusters) =
    List.length (filter in_range clusters) /\
  (Forall (fun k => in_range k = true) clusters ->
   list_sum (scatter_group_sizes clusters) = List.length clusters) /\
  (forall k, In k clusters -> in_range k = false ->
   (list_sum (scatter_group_sizes clusters) < List.length clusters)%nat).
Proof.
  assert (Hsum := scatter_total clusters).
  split; [exact Hsum|split].
  - intros Hall. rewrite Hsum. f_equal.
    apply forallb_filter_id. apply forallb_forall.
    rewrite Forall_forall in Hall. exact Hall.
  - intros k Hin Hout. rewrite Hsum.
    assert (Hle := filter_length_le in_range clusters).
    assert (Hne : List.length (filter in_range clusters) <> List.length clusters).
    { intros Heq.
      assert (Hall : forall x, In x clusters -> in_range x = true).
      { apply filter_length_forallb in Heq.
        apply forallb_forall. assumption. }
      rewrite (Hall k Hin) in Hout. discriminate. }
    lia.
Qed.

(** ** The dashboard: colours of the archetype bars, labels of the pie *)

Lemma groupby_keys_of_clusters (clusters : list Z) :
  Forall (fun k => in_range k = true) clusters ->
  groupby_keys (map (dict_get archetype_names) clusters) =
  groups_present (occurs 0 clusters) (occurs 1 clusters) (occurs 2 clusters)
                 (occurs 3 clusters) (occurs 4 clusters).
Proof.
  induction 1 as [|k rest Hk _ IH]; [reflexivity|].
  unfold in_range in Hk. rewrite andb_true_iff, Z.leb_le, Z.leb_le in Hk.
  assert (k = 0 \/ k = 1 \/ k = 2 \/ k = 3 \/ k = 4)%Z as Hcases by lia.
  cbn [map groupby_keys fold_right].
  change (fold_right _ [] (map (dict_get archetype_names) rest))
    with (groupby_keys (map (dict_get archetype_names) rest)).
  rewrite IH. unfold occurs. cbn [existsb].
  destruct Hcases as [ -> | [ -> | [ -> | [ -> | -> ]]]];
    cbn [Z.eqb Pos.eqb orb];
    destruct (existsb (Z.eqb 0) rest), (existsb (Z.eqb 1) rest),
             (existsb (Z.eqb 2) rest), (existsb (Z.eqb 3) rest),
             (existsb (Z.eqb 4) rest);
    vm_compute; reflexivity.
Qed.

Lemma occurs_In (k : Z) (xs : list Z) : occurs k xs = true <-> In k xs.
Proof.
  unfold occurs. rewrite existsb_exists. split.
  - intros (x & Hx & Heq). apply Z.eqb_eq in Heq. subst. assumption.
  - intros Hin. exists k. split; [assumption | apply Z.eqb_refl].
Qed.

(** X17. The dashboard colours the bars of [groupby('Archetype')] by position,
    and the groups come in the order of the names as strings, not of the
    ids.  When all five archetypes occur, an archetype has the same colour
    in the dashboard as in the segmentation chart only if it is "Premium
    Loyalists" (id 2) or "Flight Risks" (id 3); the other three differ. *)
Theorem dashboard_colours_follow_name_order (clusters : list Z) :
  Forall (fun k => in_range k = true) clusters ->
  (forall k, in_range k = true -> In k clusters) ->
  archetype_bar_colors (map (dict_get archetype_names) clusters) =
    [("⚡ Active Independents", brand "info");
     ("🎲 Decision Pending", brand "primary");
     ("🏆 Premium Loyalists", brand "success");
     ("🚨 Flight Risks", brand "secondary");
     ("🤝 Social Connectors", brand "warning")] /\
  forall k name,
    dict_get archetype_names k = Some name ->
    str_dict_get
      (archetype_bar_colors (map (dict_get archetype_names) clusters)) name
    = dict_get archetype_colors k
    <-> (k = 2 \/ k = 3)%Z.
Proof.
  intros Hrange Hall.
  assert (Hbars : archetype_bar_colors (map (dict_get archetype_names) clusters) =
    [("⚡ Active Independents", brand "info");
     ("🎲 Decision Pending", brand "primary");
     ("🏆 Premium Loyalists", brand "success");
     ("🚨 Flight Risks", brand "secondary");
     ("🤝 Social Connectors", brand "warning")]).
  { unfold archetype_bar_colors.
    rewrite (groupby_keys_of_clusters clusters Hrange).
    rewrite !(proj2 (occurs_In _ clusters)) by (apply Hall; reflexivity).
    reflexivity. }
  split; [exact Hbars|].
  intros k name Hname. rewrite Hbars.
  apply dict_get_in in Hname. simpl in Hname.
  destruct Hname as [Hn|[Hn|[Hn|[Hn|[Hn|[]]]]]]; inversion Hn; subst k name;
    vm_compute; (split; [intros Heq; try discriminate; auto | intros [Hk|Hk];
                          try discriminate; reflexivity]).
Qed.

Lemma unique_In (xs : list Z) (v : Z) : In v (unique xs) <-> In v xs.
Proof.
  induction xs as [|x rest IH]; simpl; [tauto|].
  rewrite filter_In, IH, negb_true_iff, Z.eqb_neq.
  destruct (Z.eq_dec x v); intuition congruence.
Qed.

Lemma unique_binary (xs : list Z) :
  Forall (fun v => v = 0 \/ v = 1)%Z xs ->
  In (unique xs) [[]; [0]; [1]; [0; 1]; [1; 0]]%Z.
Proof.
  induction 1 as [|x rest Hx _ IH]; [simpl; tauto|].
  cbn [unique]. simpl in IH.
  destruct Hx as [ -> | -> ];
    destruct IH as [<-|[<-|[<-|[<-|[<-|[]]]]]]; simpl; tauto.
Qed.

(** X18. The pie gives its labels by position to the counts of
    [value_counts()], which come most frequent first.  When the flags are
    0 and 1 and more customers churned than stayed, the wedge labelled
    "Retained" has the size of the churned group and the wedge labelled
    "Churned" the size of the retained one. *)
Theorem pie_labels_follow_frequency (churn : list Z) :
  Forall (fun v => v = 0 \/ v = 1)%Z churn ->
  (0 < count_of churn 0)%nat ->
  (count_of churn 0 < count_of churn 1)%nat ->
  value_counts churn = [(1, count_of churn 1); (0, count_of churn 0)]%Z /\
  churn_pie churn =
    inr [("Retained", count_of churn 1); ("Churned", count_of churn 0)].
Proof.
  intros Hbin H0 H01.
  assert (Hvc : value_counts churn =
                [(1, count_of churn 1); (0, count_of churn 0)]%Z).
  { assert (Hin0 : In 0%Z (unique churn))
      by (apply (proj2 (unique_In _ _)), (proj1 (count_of_pos _ _));
          assumption).
    assert (Hin1 : In 1%Z (unique churn))
      by (apply (proj2 (unique_In _ _)), (proj1 (count_of_pos _ _)); lia).
    unfold value_counts.
    destruct (unique_binary churn Hbin) as [Hu|[Hu|[Hu|[Hu|[Hu|[]]]]]];
      rewrite <- Hu in Hin0, Hin1; simpl in Hin0, Hin1;
      try (exfalso; intuition discriminate);
      rewrite <- Hu; cbn [map fold_right insert_by_count snd].
    - destruct (count_of churn 1 <=? count_of churn 0)%nat eqn:Hc;
        [apply Nat.leb_le in Hc; lia | reflexivity].
    - destruct (count_of churn 0 <=? count_of churn 1)%nat eqn:Hc;
        [reflexivity | apply Nat.leb_gt in Hc; lia]. }
  split; [exact Hvc|].
  unfold churn_pie. rewrite Hvc. reflexivity.
Qed.

(** X19. When every customer has the same churn flag, or the table is empty,
    [value_counts()] has fewer than two entries and the pie, given two
    labels, raises a [ValueError]. *)
Theorem pie_needs_both_flags (churn : list Z) :
  (forall v w, In v churn -> In w churn -> v = w) ->
  exists e, churn_pie churn = inl e /\ exc_cls e = ValueError.
Proof.
  intros Hsame.
  assert (Hu : unique churn = [] \/ exists v, unique churn = [v]).
  { destruct churn as [|x rest]; [left; reflexivity|]. right. exists x.
    cbn [unique]. f_equal.
    assert (Hall : forall y, In y (unique rest) -> y = x).
    { intros y Hy. apply (proj1 (unique_In _ _)) in Hy.
      apply Hsame; [right; assumption | left; reflexivity]. }
    induction (unique rest) as [|y l IHl]; [reflexivity|].
    cbn [filter]. rewrite (Hall y (or_introl eq_refl)), Z.eqb_refl.
    apply IHl. intros z Hz. apply Hall. right. assumption. }
  unfold churn_pie, value_counts.
  destruct Hu as [->|[v ->]]; eexists; (split; [reflexivity|reflexivity]).
Qed.

(** ** From the loader to the segmentation chart *)

Section LoaderToCharts.
Context {G : Generator} {H : Host}.

(** X16. What the loader returns is what the segmentation chart needs: with
    samples in [[0, 1)], on every table and dict the loader hands back the
    segment sizes add up to the row count, the five scatter groups hold
    every row, and neither the colour lookup nor the label lookup in the
    returned dict raises. *)
Theorem loader_output_feeds_segmentation st df' names out st' :
  rng_uniform G ->
  load_and_prepare_data st = (Ret (Some df', names), out, st') ->
  exists clusters names0,
    names = Some names0 /\
    lookup_col "Cluster" (columns df') = Some (IntCol clusters) /\
    list_sum (map snd (segment_sizes clusters)) = nrows df' /\
    list_sum (scatter_group_sizes clusters) = nrows df' /\
    exists cs ws,
      segment_colors clusters = inr cs /\
      tick_labels names0 (keys (segment_sizes clusters)) = inr ws /\
      List.length cs = List.length ws.
Proof.
  intros Hu Hrun.
  destruct (prepared_derived _ _ _ _ _ Hrun)
    as (df & clusters & _ & Hd & Htake & ->).
  destruct Hd as (Hrows & _ & _ & Hcl & _).
  destruct (clusters_drawn (mt_seed 42) (nrows df) Hu) as (ids & Hids & Hlen).
  rewrite Hids in Htake. inversion Htake; subst ids.
  apply take_all_inv in Hids. destruct Hids as [_ Hin].
  assert (Hrange : Forall (fun k => in_range k = true) clusters).
  { eapply Forall_impl; [|exact Hin]. intros k Hk.
    destruct (archetype_of_cluster k Hk) as [Hr _].
    unfold in_range. apply andb_true_iff. rewrite Z.leb_le, Z.leb_le. exact Hr. }
  assert (Hkeys : Forall (fun k => in_range k = true)
                         (keys (segment_sizes clusters))).
  { rewrite Forall_forall in *. intros k Hk. apply Hrange.
    unfold segment_sizes, keys in Hk. rewrite map_map in Hk. cbn [fst] in Hk.
    rewrite map_id in Hk. apply (proj1 (sorted_keys_In _ _)). assumption. }
  assert (Hcs : exists cs, segment_colors clusters = inr cs).
  { unfold segment_colors. apply getitems_ok.
    eapply Forall_impl; [|exact Hkeys]. intros k Hk.
    apply archetype_colors_defined. assumption. }
  destruct Hcs as [cs Hcs].
  destruct (tick_labels_in_range _ Hkeys) as (ws & Hws & Hl & _).
  exists clusters, archetype_names.
  split; [reflexivity|]. split; [assumption|].
  split; [rewrite segment_sizes_total; congruence|].
  split.
  - rewrite scatter_total. rewrite forallb_filter_id; [congruence|].
    apply forallb_forall. rewrite Forall_forall in Hrange. exact Hrange.
  - exists cs, ws. repeat split; try assumption.
    unfold segment_colors in Hcs. apply getitems_length in Hcs. congruence.
Qed.

End LoaderToCharts.

(** ** The further properties at work on the sample table *)

Lemma loader_succeeds_witness :
  rng_uniform counter_generator /\
  @read_csv sample_host "../datasets/gym_churn_us.csv" = inr sample_table /\
  exists df' clusters,
    @load_and_prepare_data counter_generator sample_host 9%nat =
      (Ret (Some df', Some archetype_names),
       [Print "📊 Loading and preparing data for visualization...";
        Print (loaded_line sample_table);
        Print "✅ Data preparation completed successfully!"],
       snd (@mt_random_sample counter_generator
              (@mt_seed counter_generator 42) (nrows sample_table))) /\
    derived_from sample_table df' clusters /\
    List.length clusters = nrows sample_table.
Proof.
  split; [exact counter_generator_uniform|].
  split; [reflexivity|].
  refine (@loader_succeeds_on_numeric_columns counter_generator sample_host
            9%nat sample_table counter_generator_uniform eq_refl _).
  intros b. destruct b; eexists; eexists; split; reflexivity.
Defined.

(** Started from state 0 or from state 17, the loader ends in state 48. *)
Lemma loader_reseeds_witness :
  snd sample_run = 48%nat /\ snd cluster_run = 48%nat /\
  exists df,
    @read_csv sample_host "../datasets/gym_churn_us.csv" = inr df /\
    snd sample_run =
      snd (@mt_random_sample counter_generator
             (@mt_seed counter_generator 42) (nrows df)) /\
    events_of sample_run =
      [Print "📊 Loading and preparing data for visualization...";
       Print (loaded_line df);
       Print "✅ Data preparation completed successfully!"] /\
    Some archetype_names = Some archetype_names.
Proof.
  split; [vm_compute; reflexivity|].
  split; [vm_compute; reflexivity|].
  refine (@loader_reseeds_generator counter_generator sample_host 0%nat
            sample_output (Some archetype_names) (events_of sample_run)
            (snd sample_run) _).
  vm_compute; reflexivity.
Defined.

Lemma loader_names_witness :
  lookup_col (band_source TenureCategory) (columns table_without_lifetime)
    = None /\
  @load_and_prepare_data counter_generator host_without_lifetime 5%nat =
    (Ret (None, None),
     [Print "📊 Loading and preparing data for visualization...";
      Print (loaded_line table_without_lifetime);
      Print ("❌ Error loading data: '" ++ band_source TenureCategory ++ "'")],
     5%nat).
Proof.
  split; [reflexivity|].
  refine (@loader_names_first_absent_column counter_generator
            host_without_lifetime 5%nat table_without_lifetime TenureCategory
            eq_refl _ eq_refl).
  intros b' Hb'. destruct b'; cbn in Hb'; try lia;
    eexists; eexists; split; reflexivity.
Defined.

Lemma main_runs_witness :
  @main counter_generator sample_host 0%nat =
    (Ret tt, (banner ++ events_of sample_run ++ full_run_events)%list,
     snd sample_run).
Proof.
  refine (@main_runs_builders_in_order counter_generator sample_host 0%nat
            sample_output (Some archetype_names) (events_of sample_run)
            (snd sample_run) _ eq_refl eq_refl eq_refl).
  vm_compute; reflexivity.
Defined.

Lemma third_builder_witness :
  @plot_customer_segmentation host_third_fails sample_output
     (Some archetype_names) = Some disk_full /\
  @main counter_generator host_third_fails 0%nat =
    (Ret tt,
     (banner ++ events_of sample_run ++
      firstn 8 full_run_events ++
      [Print ("❌ Error generating visualizations: " ++ exc_str disk_full)])%list,
     snd sample_run).
Proof.
  split; [reflexivity|].
  refine (@third_builder_failure_keeps_first_two counter_generator
            host_third_fails 0%nat sample_output (Some archetype_names)
            (events_of sample_run) (snd sample_run) disk_full
            _ eq_refl eq_refl eq_refl eq_refl).
  vm_compute; reflexivity.
Defined.

Lemma interrupt_loading_witness :
  is_Exception (exc_cls interrupt) = false /\
  @main counter_generator host_interrupted_read 3%nat =
    (Raise interrupt,
     (banner ++
      [Print "📊 Loading and preparing data for visualization..."])%list,
     3%nat).
Proof.
  split; [reflexivity|].
  exact (@interrupt_while_loading_propagates counter_generator
           host_interrupted_read 3%nat interrupt eq_refl eq_refl).
Defined.

Lemma interrupt_builder_witness :
  @plot_model_performance host_interrupted sample_output = Some interrupt /\
  exists n,
    (n = 2 \/ n = 5 \/ n = 8)%nat /\
    @main counter_generator host_interrupted 0%nat =
      (Raise interrupt,
       (banner ++ events_of sample_run ++ firstn n full_run_events)%list,
       snd sample_run).
Proof.
  split; [reflexivity|].
  refine (@interrupt_in_builder_propagates counter_generator host_interrupted
            0%nat sample_output (Some archetype_names) (events_of sample_run)
            (snd sample_run) interrupt _ _ eq_refl).
  - vm_compute; reflexivity.
  - right. left. split; reflexivity.
Defined.

(** The ids of the sample table: all five occur. *)
Lemma segment_lookups_witness :
  exists cs ws,
    segment_colors [4; 1; 3; 0; 2; 3]%Z = inr cs /\
    tick_labels archetype_names (keys (segment_sizes [4; 1; 3; 0; 2; 3]%Z))
      = inr ws /\
    List.length cs = List.length (segment_sizes [4; 1; 3; 0; 2; 3]%Z) /\
    List.length ws = List.length (segment_sizes [4; 1; 3; 0; 2; 3]%Z) /\
    Forall (fun w => In w ["Social"; "Active"; "Premium"; "Flight";
                           "Decision"]) ws.
Proof.
  refine (proj1 (proj2 (segment_lookups_need_ids_in_range
                          [4; 1; 3; 0; 2; 3]%Z)) _).
  repeat constructor.
Defined.

(** An id 7 among the rows: eight rows, seven of them drawn. *)
Lemma scatter_groups_witness :
  (list_sum (scatter_group_sizes [4; 1; 3; 0; 2; 3]%Z) = 6)%nat /\
  (list_sum (scatter_group_sizes [4; 1; 7; 3; 0; 2; 3; 1]%Z) < 8)%nat.
Proof.
  split.
  - refine (proj1 (proj2 (scatter_groups_hold_rows_in_range
                            [4; 1; 3; 0; 2; 3]%Z)) _).
    repeat constructor.
  - refine (proj2 (proj2 (scatter_groups_hold_rows_in_range
                            [4; 1; 7; 3; 0; 2; 3; 1]%Z)) 7%Z _ eq_refl).
    simpl. tauto.
Defined.

Lemma dashboard_colours_witness :
  archetype_bar_colors (map (dict_get archetype_names) [4; 1; 3; 0; 2; 3]%Z) =
    [("⚡ Active Independents", "#20B2AA");
     ("🎲 Decision Pending", "#2E8B57");
     ("🏆 Premium Loyalists", "#32CD32");
     ("🚨 Flight Risks", "#DC143C");
     ("🤝 Social Connectors", "#FF8C00")] /\
  dict_get archetype_colors 0 = Some "#20B2AA" /\
  dict_get archetype_names 0 = Some "🤝 Social Connectors".
Proof.
  split; [|split; reflexivity].
  refine (proj1 (dashboard_colours_follow_name_order [4; 1; 3; 0; 2; 3]%Z _ _)).
  - repeat constructor.
  - intros k Hk. unfold in_range in Hk.
    apply andb_true_iff in Hk. rewrite Z.leb_le, Z.leb_le in Hk.
    simpl. lia.
Defined.

(** Three of five customers churned: "Retained" gets 3. *)
Lemma pie_labels_witness :
  churn_pie [1; 0; 1; 1; 0]%Z = inr [("Retained", 3%nat); ("Churned", 2%nat)].
Proof.
  refine (proj2 (pie_labels_follow_frequency [1; 0; 1; 1; 0]%Z _ _ _)).
  - repeat constructor; simpl; tauto.
  - vm_compute. lia.
  - vm_compute. lia.
Defined.

Lemma pie_needs_witness :
  exists e, churn_pie [0; 0; 0]%Z = inl e /\ exc_cls e = ValueError.
Proof.
  refine (pie_needs_both_flags [0; 0; 0]%Z _).
  simpl. intros v w Hv Hw. lia.
Defined.

Lemma loader_feeds_witness :
  exists clusters names0,
    Some archetype_names = Some names0 /\
    lookup_col "Cluster" (columns sample_output) = Some (IntCol clusters) /\
    list_sum (map snd (segment_sizes clusters)) = nrows sample_output /\
    list_sum (scatter_group_sizes clusters) = nrows sample_output /\
    exists cs ws,
      segment_colors clusters = inr cs /\
      tick_labels names0 (keys (segment_sizes clusters)) = inr ws /\
      List.length cs = List.length ws.
Proof.
  refine (@loader_output_feeds_segmentation counter_generator sample_host
            0%nat sample_output (Some archetype_names) (events_of sample_run)
            (snd sample_run) counter_generator_uniform _).
  vm_compute; reflexivity.
Defined.

(** ** Column order *)

Lemma set_col_names (name : string) (c : column)
  (cols : list (string * column)) :
  map fst (set_col name c cols) =
  (map fst cols ++ if absent cols name then [name] else [])%list.
Proof.
  unfold absent. induction cols as [|[k old] rest IH]; [reflexivity|].
  cbn [set_col lookup_col map fst].
  destruct (String.eqb k name) eqn:Hk.
  - cbn [map fst]. rewrite app_nil_r. reflexivity.
  - cbn [map fst app]. rewrite IH. reflexivity.
Qed.

Lemma absent_set_col_other (name other : string) (c : column)
  (cols : list (string * column)) :
  name <> other -> absent (set_col name c cols) other = absent cols other.
Proof.
  intros Hne. unfold absent. rewrite lookup_set_col_other by assumption.
  reflexivity.
Qed.

Section Frame.
Context {G : Generator} {H : Host}.

(** X7. The feature deriver removes no column and moves none: the column names
    of the result are those of the loaded table in their order, followed
    by the derived names the loaded table did not have, in the order of
    their assignment.  On a table that already has all five, the names and
    their order do not change at all. *)
Theorem deriver_keeps_column_order st df' names out st' :
  load_and_prepare_data st = (Ret (Some df', names), out, st') ->
  exists df,
    read_csv "../datasets/gym_churn_us.csv" = inr df /\
    map fst (columns df') =
      (map fst (columns df) ++ filter (absent (columns df)) derived_columns)%list.
Proof.
  intros Hrun.
  apply load_success in Hrun. destruct Hrun as (n0 & o0 & Hbody & _).
  apply load_body_ret in Hbody.
  destruct Hbody as (df & x1 & x2 & x3 & cl & Hcsv & _ & _ & _ & _ & -> & _).
  exists df. split; [assumption|].
  cbn [columns setitem].
  rewrite !set_col_names.
  repeat (rewrite absent_set_col_other by names_differ).
  cbn [derived_columns filter].
  destruct (absent (columns df) "customer_value_tier"),
           (absent (columns df) "activity_level"),
           (absent (columns df) "tenure_category"),
           (absent (columns df) "Cluster"),
           (absent (columns df) "Archetype");
    rewrite <- ?app_assoc; reflexivity.
Qed.

End Frame.

(** A table that already has a [Cluster] column keeps its seven names in
    place and gains four. *)
Lemma column_order_witness :
  map fst (columns cluster_output) =
    (map fst (columns table_with_cluster) ++
     ["customer_value_tier"; "activity_level"; "tenure_category";
      "Archetype"])%list /\
  exists df,
    @read_csv cluster_host "../datasets/gym_churn_us.csv" = inr df /\
    map fst (columns cluster_output) =
      (map fst (columns df) ++ filter (absent (columns df)) derived_columns)%list.
Proof.
  split; [vm_compute; reflexivity|].
  refine (@deriver_keeps_column_order counter_generator cluster_host 17%nat
            cluster_output (Some archetype_names) (events_of cluster_run)
            (snd cluster_run) _).
  vm_compute; reflexivity.
Defined.
